(** * Nexus usage exporter: the time-windowed log aggregation engine

    A shallow embedding of [src/utils/exporter.py] (and of the route
    validation of [src/main.py]) together with the properties of the
    aggregation that the design document states.

    Conventions of the embedding.
    - Text is a [string] over 8-bit characters, read as the code points
      U+0000..U+00FF; the character classes below are those of Python's
      [str] methods and of the [re] module on that range.
    - A raised exception is a value [Raise e] of the [result] type; the
      bare [except:] of the request parsing is a [match] on it.
    - A naive [datetime] is the count of seconds from the start of the
      proleptic Gregorian day of ordinal 0, so that [date()] is a division
      and the subtraction of a [timedelta] a subtraction; the constructor
      and [strftime] go through CPython's [_ymd2ord] and [_ord2ymd], and
      the counts are in the order of the fields ([make_lt]).
    - A [collections.Counter] is an association list in insertion order
      with unique keys, which is what [most_common] observes.
    - What the program reads from outside is a [World]: the clock, the
      lines of the files of the log directory as the text reader yields
      them, and the text of the flag file.  The clock is read once per
      aggregation: [datetime.now()] has the same value throughout one call
      of [collect_metrics].  The two aggregations of one export each have
      their own world.  In a [World] every file that exists is read to
      its end; the readings that raise are the matter of [Storage]. *)

From Stdlib Require Import List String Ascii ZArith NArith Arith Bool Lia.
From Stdlib Require Import Permutation Sorted.
Import ListNotations.

Local Open Scope string_scope.
Local Open Scope Z_scope.

(** ** Exceptions *)

Inductive exn : Type :=
| IndexError
| KeyError
| ValueError
| OverflowError.

Inductive result (A : Type) : Type :=
| Ok (a : A)
| Raise (e : exn).

Arguments Ok {A} a.
Arguments Raise {A} e.

Definition bind {A B : Type} (m : result A) (k : A -> result B) : result B :=
  match m with
  | Ok a => k a
  | Raise e => Raise e
  end.

Notation "x <- m ;; k" := (bind m (fun x => k))
  (at level 61, m at next level, right associativity).

Notation "' p <- m ;; k" := (bind m (fun x => match x with p => k end))
  (at level 61, p pattern, m at next level, right associativity).

(** [for x in xs: acc = body(x, acc)], an exception leaving the loop. *)
Fixpoint for_each {A S : Type} (body : A -> S -> result S) (xs : list A)
  (acc : S) : result S :=
  match xs with
  | [] => Ok acc
  | x :: xs' => acc' <- body x acc ;; for_each body xs' acc'
  end.

(** ** Python text primitives *)

Module PyStr.

Definition code (c : ascii) : N := N_of_ascii c.

Definition in_range (lo hi : N) (c : ascii) : bool :=
  ((lo <=? code c) && (code c <=? hi))%N.

(** [str.isspace], the separator class of [str.split()] and [str.strip()]. *)
Definition is_space (c : ascii) : bool :=
  in_range 9 13 c || in_range 28 32 c || (code c =? 133)%N || (code c =? 160)%N.

(** The blanks [int()] accepts around a literal. *)
Definition is_int_space (c : ascii) : bool :=
  in_range 9 13 c || (code c =? 32)%N || (code c =? 133)%N || (code c =? 160)%N.

(** The line boundaries of [str.splitlines], CR LF apart. *)
Definition is_linebreak (c : ascii) : bool :=
  in_range 10 13 c || in_range 28 30 c || (code c =? 133)%N.

(** [\d] *)
Definition is_digit (c : ascii) : bool := in_range 48 57 c.

(** [\w] *)
Definition is_word (c : ascii) : bool :=
  is_digit c || in_range 65 90 c || in_range 97 122 c || (code c =? 95)%N
  || (code c =? 170)%N || in_range 178 179 c || (code c =? 181)%N
  || in_range 185 186 c || in_range 188 190 c || in_range 192 214 c
  || in_range 216 246 c || in_range 248 255 c.

Definition digit_val (c : ascii) : Z := Z.of_N (code c) - 48.

(** [s.split()]: the maximal runs of non-blank characters.  [in_tok] tells
    that the characters read so far belong to a token still open, whose
    remainder is the head of the list returned. *)
Fixpoint tokens (in_tok : bool) (s : string) : list string :=
  match s with
  | EmptyString => if in_tok then [EmptyString] else []
  | String c s' =>
      if is_space c then
        if in_tok then EmptyString :: tokens false s' else tokens false s'
      else
        match tokens true s' with
        | t :: ts => String c t :: ts
        | [] => [String c EmptyString]
        end
  end.

Definition split (s : string) : list string := tokens false s.

(** [s.split(sep)] for a one-character separator. *)
Fixpoint split_on (sep : ascii) (s : string) : list string :=
  match s with
  | EmptyString => [EmptyString]
  | String c s' =>
      if Ascii.eqb c sep then EmptyString :: split_on sep s'
      else
        match split_on sep s' with
        | t :: ts => String c t :: ts
        | [] => [String c EmptyString]
        end
  end.

(** [sep.join(parts)] *)
Definition join (sep : string) (parts : list string) : string :=
  String.concat sep parts.

(** [s.startswith(p)] *)
Definition startswith (s p : string) : bool := String.prefix p s.

(** [sub in s] *)
Fixpoint contains (sub s : string) : bool :=
  String.prefix sub s ||
  match s with
  | EmptyString => false
  | String _ s' => contains sub s'
  end.

Fixpoint lstrip_by (p : ascii -> bool) (s : string) : string :=
  match s with
  | EmptyString => EmptyString
  | String c s' => if p c then lstrip_by p s' else s
  end.

Fixpoint rstrip_by (p : ascii -> bool) (s : string) : string :=
  match s with
  | EmptyString => EmptyString
  | String c s' =>
      match rstrip_by p s' with
      | EmptyString => if p c then EmptyString else String c EmptyString
      | r => String c r
      end
  end.

(** [s.rstrip(chars)] *)
Definition rstrip (chars : string) (s : string) : string :=
  rstrip_by (fun c => existsb (Ascii.eqb c) (list_ascii_of_string chars)) s.

(** [s.strip()] *)
Definition strip (s : string) : string :=
  rstrip_by is_space (lstrip_by is_space s).

(** [s.splitlines()]; [after_cr] makes CR LF one boundary. *)
Fixpoint lines_from (in_line after_cr : bool) (s : string) : list string :=
  match s with
  | EmptyString => if in_line then [EmptyString] else []
  | String c s' =>
      if after_cr && (code c =? 10)%N then lines_from false false s'
      else if is_linebreak c then
        EmptyString :: lines_from false (code c =? 13)%N s'
      else
        match lines_from true false s' with
        | t :: ts => String c t :: ts
        | [] => [String c EmptyString]
        end
  end.

Definition splitlines (s : string) : list string := lines_from false false s.

(** The default of [sys.int_max_str_digits]. *)
Definition int_max_str_digits : nat := 4300.

(** The digits of a decimal literal, single underscores allowed between
    two digits: the value and the number of digits read. *)
Fixpoint digits (s : string) (acc : Z) (n : nat) (after_digit : bool)
  : option (Z * nat) :=
  match s with
  | EmptyString => if after_digit then Some (acc, n) else None
  | String c s' =>
      if is_digit c then digits s' (10 * acc + digit_val c) (S n) true
      else if (code c =? 95)%N then
        if after_digit then digits s' acc n false else None
      else None
  end.

Definition unsigned (s : string) : result Z :=
  match digits s 0 0%nat false with
  | Some (v, n) =>
      if (n <=? int_max_str_digits)%nat then Ok v else Raise ValueError
  | None => Raise ValueError
  end.

(** [int(s)] in base ten. *)
Definition int (s : string) : result Z :=
  match rstrip_by is_int_space (lstrip_by is_int_space s) with
  | String "+" r => unsigned r
  | String "-" r => v <- unsigned r ;; Ok (- v)
  | r => unsigned r
  end.

Fixpoint nat_digits (fuel : nat) (n : N) (acc : string) : string :=
  match fuel with
  | O => acc
  | S fuel' =>
      let acc' := String (ascii_of_N (48 + n mod 10)) acc in
      if (n / 10 =? 0)%N then acc' else nat_digits fuel' (n / 10)%N acc'
  end.

(** [str(n)] for a natural number. *)
Definition decimal (n : N) : string :=
  nat_digits (S (N.to_nat (N.log2 n))) n EmptyString.

Fixpoint repeat0 (n : nat) (s : string) : string :=
  match n with
  | O => s
  | S n' => String "0" (repeat0 n' s)
  end.

(** [format(n, "0<w>d")] for a natural number. *)
Definition zero_pad (w : nat) (n : Z) : string :=
  let s := decimal (Z.to_N n) in
  repeat0 (w - String.length s) s.

End PyStr.

(** ** The calendar of [datetime] *)

Module Calendar.

Definition is_leap (y : Z) : bool :=
  (y mod 4 =? 0) && (negb (y mod 100 =? 0) || (y mod 400 =? 0)).

Definition days_before_year (y : Z) : Z :=
  let p := y - 1 in p * 365 + p / 4 - p / 100 + p / 400.

Definition days_in_month (y m : Z) : Z :=
  if m =? 2 then (if is_leap y then 29 else 28)
  else if (m =? 4) || (m =? 6) || (m =? 9) || (m =? 11) then 30
  else 31.

(** [_DAYS_BEFORE_MONTH] *)
Definition DAYS_BEFORE_MONTH (m : Z) : Z :=
  match m with
  | 1 => 0 | 2 => 31 | 3 => 59 | 4 => 90 | 5 => 120 | 6 => 151
  | 7 => 181 | 8 => 212 | 9 => 243 | 10 => 273 | 11 => 304 | 12 => 334
  | _ => 0
  end.

Definition days_before_month (y m : Z) : Z :=
  DAYS_BEFORE_MONTH m + (if (2 <? m) && is_leap y then 1 else 0).

Definition ymd2ord (y m d : Z) : Z :=
  days_before_year y + days_before_month y m + d.

(** [_ord2ymd] *)
Definition ord2ymd (ordinal : Z) : Z * Z * Z :=
  let n := ordinal - 1 in
  let n400 := n / 146097 in
  let n := n mod 146097 in
  let n100 := n / 36524 in
  let n := n mod 36524 in
  let n4 := n / 1461 in
  let n := n mod 1461 in
  let n1 := n / 365 in
  let n := n mod 365 in
  let year := n400 * 400 + 1 + n100 * 100 + n4 * 4 + n1 in
  if (n1 =? 4) || (n100 =? 4) then (year - 1, 12, 31)
  else
    let leapyear := (n1 =? 3) && (negb (n4 =? 24) || (n100 =? 3)) in
    let month := Z.shiftr (n + 50) 5 in
    let preceding :=
      DAYS_BEFORE_MONTH month + (if (2 <? month) && leapyear then 1 else 0) in
    if n <? preceding then
      let month := month - 1 in
      let preceding :=
        preceding
        - (days_in_month 1 month + (if (month =? 2) && leapyear then 1 else 0))
      in (year, month, n - preceding + 1)
    else (year, month, n - preceding + 1).

Definition MINYEAR : Z := 1.
Definition MAXYEAR : Z := 9999.
Definition MAXORDINAL : Z := 3652059.

(** A naive datetime: [86400 * toordinal() + 3600 * hour + 60 * minute +
    second]. *)
Definition datetime : Type := Z.

(** [datetime(year, month, day, hour, minute, second)] *)
Definition make (year month day hour minute second : Z) : result datetime :=
  if (MINYEAR <=? year) && (year <=? MAXYEAR)
     && (1 <=? month) && (month <=? 12)
     && (1 <=? day) && (day <=? days_in_month year month)
     && (0 <=? hour) && (hour <=? 23)
     && (0 <=? minute) && (minute <=? 59)
     && (0 <=? second) && (second <=? 59)
  then Ok (86400 * ymd2ord year month day + 3600 * hour + 60 * minute + second)
  else Raise ValueError.

(** [dt.date()], as its ordinal. *)
Definition date (dt : datetime) : Z := dt / 86400.

(** [dt.hour] *)
Definition hour (dt : datetime) : Z := (dt mod 86400) / 3600.

(** [a >= b] on naive datetimes. *)
Definition geb (a b : datetime) : bool := b <=? a.

(** [dt - timedelta(hours=h)]: the timedelta is limited to 999999999 days
    and the difference to the years 1..9999. *)
Definition sub_hours (dt : datetime) (h : Z) : result datetime :=
  if 999999999 <? Z.abs ((3600 * h) / 86400) then Raise OverflowError
  else
    let r := dt - 3600 * h in
    if (date r <? 1) || (MAXORDINAL <? date r) then Raise OverflowError
    else Ok r.

(** [day + timedelta(days=1)] on a date. *)
Definition next_day (day : Z) : result Z :=
  if MAXORDINAL <? day + 1 then Raise OverflowError else Ok (day + 1).

(** [day.strftime("%Y-%m-%d")], the year on four digits. *)
Definition strftime_ymd (day : Z) : string :=
  let '(y, m, d) := ord2ymd day in
  PyStr.zero_pad 4 y ++ "-" ++ PyStr.zero_pad 2 m ++ "-" ++ PyStr.zero_pad 2 d.

End Calendar.

(** ** [collections.Counter] *)

Module Counter.

Definition t : Type := list (string * nat).

Definition empty : t := [].

(** [c[k] += 1]: a key already present keeps its place, a new one goes last. *)
Fixpoint incr (k : string) (c : t) : t :=
  match c with
  | [] => [(k, 1%nat)]
  | (k', n) :: c' =>
      if String.eqb k' k then (k', S n) :: c' else (k', n) :: incr k c'
  end.

(** [c[k]] *)
Fixpoint get (k : string) (c : t) : nat :=
  match c with
  | [] => 0%nat
  | (k', n) :: c' => if String.eqb k' k then n else get k c'
  end.

(** [c.items()] *)
Definition items (c : t) : list (string * nat) := c.

(** [sum(c.values())] *)
Definition sum (c : t) : nat := fold_right (fun kv s => (snd kv + s)%nat) 0%nat c.

(** [sorted(items, key=itemgetter(1), reverse=True)]: stable, so that
    entries of equal count stay in insertion order. *)
Fixpoint insert_desc (x : string * nat) (l : list (string * nat))
  : list (string * nat) :=
  match l with
  | [] => [x]
  | y :: l' =>
      if (snd x <? snd y)%nat then y :: insert_desc x l' else x :: l
  end.

Definition sort_desc (l : list (string * nat)) : list (string * nat) :=
  fold_right insert_desc [] l.

(** [c.most_common(n)], that is [heapq.nlargest(n, c.items(), key=count)]. *)
Definition most_common (n : nat) (c : t) : list (string * nat) :=
  firstn n (sort_desc c).

End Counter.

(** ** The exporter *)

Module Exporter.

Import PyStr Calendar.

(** [parts[i]] *)
Definition index (parts : list string) (i : nat) : result string :=
  match nth_error parts i with
  | Some x => Ok x
  | None => Raise IndexError
  end.

(** [parts[i:j]] *)
Definition slice (i j : nat) (parts : list string) : list string :=
  firstn (j - i) (skipn i parts).

(** Exactly [n] characters of the class [p] at the head of [s]: the
    characters and what follows them. *)
Fixpoint take_class (p : ascii -> bool) (n : nat) (s : string)
  : option (string * string) :=
  match n with
  | O => Some (EmptyString, s)
  | S n' =>
      match s with
      | String c s' =>
          if p c then
            match take_class p n' s' with
            | Some (g, rest) => Some (String c g, rest)
            | None => None
            end
          else None
      | EmptyString => None
      end
  end.

Definition expect (c : ascii) (s : string) : option string :=
  match s with
  | String c' s' => if Ascii.eqb c' c then Some s' else None
  | EmptyString => None
  end.

Definition obind {A B : Type} (m : option A) (k : A -> option B) : option B :=
  match m with
  | Some a => k a
  | None => None
  end.

(** The six groups of [LOG_PATTERN],
    [\[(\d{2})/(\w{3})/(\d{4}):(\d{2}):(\d{2}):(\d{2})], matched at the
    head of [s]. *)
Definition LOG_PATTERN_match (s : string)
  : option (string * string * string * string * string * string) :=
  obind (expect "[" s) (fun s =>
  obind (take_class is_digit 2 s) (fun '(day, s) =>
  obind (expect "/" s) (fun s =>
  obind (take_class is_word 3 s) (fun '(mon, s) =>
  obind (expect "/" s) (fun s =>
  obind (take_class is_digit 4 s) (fun '(year, s) =>
  obind (expect ":" s) (fun s =>
  obind (take_class is_digit 2 s) (fun '(hh, s) =>
  obind (expect ":" s) (fun s =>
  obind (take_class is_digit 2 s) (fun '(mm, s) =>
  obind (expect ":" s) (fun s =>
  obind (take_class is_digit 2 s) (fun '(ss, _) =>
  Some (day, mon, year, hh, mm, ss))))))))))))).

(** [LOG_PATTERN.search(line)]: the leftmost match. *)
Fixpoint LOG_PATTERN_search (line : string)
  : option (string * string * string * string * string * string) :=
  match LOG_PATTERN_match line with
  | Some g => Some g
  | None =>
      match line with
      | String _ line' => LOG_PATTERN_search line'
      | EmptyString => None
      end
  end.

(** [MONTHS[mon]] *)
Definition MONTHS (mon : string) : result Z :=
  if String.eqb mon "Jan" then Ok 1
  else if String.eqb mon "Feb" then Ok 2
  else if String.eqb mon "Mar" then Ok 3
  else if String.eqb mon "Apr" then Ok 4
  else if String.eqb mon "May" then Ok 5
  else if String.eqb mon "Jun" then Ok 6
  else if String.eqb mon "Jul" then Ok 7
  else if String.eqb mon "Aug" then Ok 8
  else if String.eqb mon "Sep" then Ok 9
  else if String.eqb mon "Oct" then Ok 10
  else if String.eqb mon "Nov" then Ok 11
  else if String.eqb mon "Dec" then Ok 12
  else Raise KeyError.

Definition parse_line_time (line : string) : result (option datetime) :=
  match LOG_PATTERN_search line with
  | None => Ok None
  | Some (day, mon, year, hh, mm, ss) =>
      y <- int year ;;
      m <- MONTHS mon ;;
      d <- int day ;;
      h <- int hh ;;
      mi <- int mm ;;
      s <- int ss ;;
      ts <- make y m d h mi s ;;
      Ok (Some ts)
  end.

(** The generator [iter_log_file], on the lines of the opened file: the
    body of the consuming [for] loop runs at each [yield], between two
    readings. *)
Fixpoint iter_log_file {S : Type} (lines : list string) (cutoff : datetime)
  (body : string -> S -> result S) (acc : S) : result S :=
  match lines with
  | [] => Ok acc
  | line :: lines' =>
      ts <- parse_line_time line ;;
      acc' <- match ts with
              | Some t => if geb t cutoff then body line acc else Ok acc
              | None => Ok acc
              end ;;
      iter_log_file lines' cutoff body acc'
  end.

(** [list(iter_log_file(path, cutoff))] *)
Definition yielded (lines : list string) (cutoff : datetime)
  : result (list string) :=
  iter_log_file lines cutoff (fun line acc => Ok (acc ++ [line])%list) [].

(** The dictionary [collect_metrics] returns, which is also the state of
    its counters during the scan. *)
Record Metrics : Type := {
  total : nat;
  by_user : Counter.t;
  by_endpoint : Counter.t;
  by_repo : Counter.t;
  by_service : Counter.t;
  by_ip : Counter.t;
  by_hour : Counter.t;
  by_status : Counter.t;
  custom_flags : Counter.t
}.

Definition fresh : Metrics := {|
  total := 0;
  by_user := Counter.empty;
  by_endpoint := Counter.empty;
  by_repo := Counter.empty;
  by_service := Counter.empty;
  by_ip := Counter.empty;
  by_hour := Counter.empty;
  by_status := Counter.empty;
  custom_flags := Counter.empty
|}.

Definition quote : ascii := "034"%char.

(** [method, path, _ = req.split()] *)
Definition unpack3 (parts : list string) : result (string * string * string) :=
  match parts with
  | [a; b; c] => Ok (a, b, c)
  | _ => Raise ValueError
  end.

(** ["/" + "/".join(path.split("/")[1:3])] *)
Definition group_of (path : string) : string :=
  "/" ++ join "/" (slice 1 3 (split_on "/" path)).

(** The body of the [try] block: the three request counters after it. *)
Definition count_request (line : string) (e r s : Counter.t)
  : result (Counter.t * Counter.t * Counter.t) :=
  req <- index (split_on quote line) 1 ;;
  '(_, path, _) <- unpack3 (split req) ;;
  let e := Counter.incr path e in
  let r :=
    if startswith path "/repository/" then Counter.incr (group_of path) r
    else r in
  let s :=
    if startswith path "/service/" then Counter.incr (group_of path) s
    else s in
  Ok (e, r, s).

(** [for flag in flags: if flag in line: custom_flags[flag] += 1] *)
Definition count_flags (flags : list string) (line : string) (c : Counter.t)
  : Counter.t :=
  fold_left
    (fun c flag => if contains flag line then Counter.incr flag c else c)
    flags c.

(** The body of both scanning loops, the one of the dated archives and
    the textually identical one of the live file. *)
Definition process_line (flags : list string) (line : string) (m : Metrics)
  : result Metrics :=
  let total := S (total m) in
  let parts := split line in
  ip <- index parts 0 ;;
  user <- index parts 2 ;;
  status <- (if (8 <? List.length parts)%nat then index parts 8
             else Ok EmptyString) ;;
  let by_ip := Counter.incr ip (by_ip m) in
  let by_user := Counter.incr user (by_user m) in
  let by_status := Counter.incr status (by_status m) in
  let '(by_endpoint, by_repo, by_service) :=
    match count_request line (by_endpoint m) (by_repo m) (by_service m) with
    | Ok counters => counters
    | Raise _ => (by_endpoint m, by_repo m, by_service m)
    end in
  ts <- parse_line_time line ;;
  let by_hour :=
    match ts with
    | Some t => Counter.incr (zero_pad 2 (hour t)) (by_hour m)
    | None => by_hour m
    end in
  let custom_flags := count_flags flags line (custom_flags m) in
  Ok {|
    total := total;
    by_user := by_user;
    by_endpoint := by_endpoint;
    by_repo := by_repo;
    by_service := by_service;
    by_ip := by_ip;
    by_hour := by_hour;
    by_status := by_status;
    custom_flags := custom_flags
  |}.

(** What the aggregation reads: the clock, the files of [LOG_DIR] by name
    (the lines of each as the text reader yields them, [None] for a file
    that does not exist) and the text of the flag file, if there is one. *)
Record World : Type := {
  now : datetime;
  log_dir : string -> option (list string);
  flag_file : option string
}.

(** [dates.add(x)] *)
Definition set_add (x : string) (s : list string) : list string :=
  if existsb (String.eqb x) s then s else x :: s.

Fixpoint insert_sorted (x : string) (l : list string) : list string :=
  match l with
  | [] => [x]
  | y :: l' => if String.leb x y then x :: l else y :: insert_sorted x l'
  end.

(** [sorted(dates)] *)
Definition sorted (s : list string) : list string :=
  fold_right insert_sorted [] s.

(** [while day <= today: dates.add(...); day += timedelta(days=1)], by
    recursion on the number [today + 1 - day] of days left. *)
Fixpoint date_loop (left : nat) (day : Z) (dates : list string)
  : result (list string) :=
  match left with
  | O => Ok dates
  | S left' =>
      let dates := set_add (strftime_ymd day) dates in
      day <- next_day day ;;
      date_loop left' day dates
  end.

(** [[l.strip() for l in text.splitlines() if l.strip()]] *)
Definition load_flags (w : World) : list string :=
  match flag_file w with
  | Some text =>
      map strip
        (filter (fun l => negb (String.eqb (strip l) EmptyString))
           (splitlines text))
  | None => []
  end.

(** [if p.exists(): for line in iter_log_file(p, cutoff): ...] *)
Definition scan_file (w : World) (flags : list string) (cutoff : datetime)
  (name : string) (m : Metrics) : result Metrics :=
  match log_dir w name with
  | Some lines => iter_log_file lines cutoff (process_line flags) m
  | None => Ok m
  end.

Definition collect_metrics (w : World) (window_hours : Z) : result Metrics :=
  cutoff <- sub_hours (now w) window_hours ;;
  let day := date cutoff in
  dates <- date_loop (Z.to_nat (date (now w) + 1 - day)) day [] ;;
  let flags := load_flags w in
  m <- for_each
         (fun d m =>
            for_each
              (fun suffix m => scan_file w flags cutoff ("request-" ++ d ++ suffix) m)
              [".log.gz"; ".log"] m)
         (sorted dates) fresh ;;
  scan_file w flags cutoff "request.log" m.

(** The content of the registry that [generate_latest] renders: the two
    scalars and, for each labelled gauge, its samples in the order they
    were set. *)
Record Payload : Type := {
  requests_total : nat;
  requests_total_last_24h : nat;
  requests_by_user : list (string * nat);
  requests_by_endpoint : list (string * nat);
  requests_by_repository : list (string * nat);
  requests_by_service : list (string * nat);
  requests_by_source_ip : list (string * nat);
  requests_by_hour : list (string * nat);
  status_code_total : list (string * nat);
  custom_flag_matches : list (string * nat)
}.

(** [int(window.rstrip("h"))] *)
Definition window_hours (window : string) : result Z :=
  int (rstrip "h" window).

(** [w] is the world at the first aggregation and [w24] the world at the
    second one. *)
Definition export_metrics (w w24 : World) (window : string)
  : result Payload :=
  hours <- window_hours window ;;
  data <- collect_metrics w hours ;;
  data24 <- collect_metrics w24 24 ;;
  Ok {|
    requests_total := total data;
    requests_total_last_24h := total data24;
    requests_by_user := Counter.items (by_user data);
    requests_by_endpoint := Counter.most_common 50 (by_endpoint data);
    requests_by_repository := Counter.items (by_repo data);
    requests_by_service := Counter.items (by_service data);
    requests_by_source_ip := Counter.items (by_ip data);
    requests_by_hour := Counter.items (by_hour data);
    status_code_total := Counter.items (by_status data);
    custom_flag_matches := Counter.items (custom_flags data)
  |}.

(** The route's check of the query parameter, [^\d+[hH]$], the dollar read
    as the end of the text. *)
Fixpoint window_tail (s : string) : bool :=
  match s with
  | String c EmptyString => Ascii.eqb c "h" || Ascii.eqb c "H"
  | String c s' => is_digit c && window_tail s'
  | EmptyString => false
  end.

Definition window_format (s : string) : bool :=
  match s with
  | String c s' => is_digit c && window_tail s'
  | EmptyString => false
  end.

End Exporter.

(** ** Notions used to state the properties *)

Module Spec.

Import PyStr Calendar Exporter.

(** The test of [iter_log_file]: the timestamp is there and not before
    the cutoff. *)
Definition in_window (cutoff : datetime) (line : string) : bool :=
  match parse_line_time line with
  | Ok (Some t) => geb t cutoff
  | _ => false
  end.

(** The number of lines of a file of the log directory that pass the test. *)
Definition file_count (w : World) (cutoff : datetime) (name : string) : nat :=
  match log_dir w name with
  | Some lines => List.length (filter (in_window cutoff) lines)
  | None => 0
  end.

(** The same for the two archives of one date. *)
Definition day_count (w : World) (cutoff : datetime) (d : string) : nat :=
  (file_count w cutoff ("request-" ++ d ++ ".log.gz")
   + file_count w cutoff ("request-" ++ d ++ ".log"))%nat.

(** What the five sums of the design document say of a state of the
    counters. *)
Definition sums_agree (m : Metrics) : Prop :=
  Counter.sum (by_status m) = total m /\
  Counter.sum (by_user m) = total m /\
  Counter.sum (by_ip m) = total m /\
  (Counter.sum (by_endpoint m) <= total m)%nat.

(** A text made of decimal digits only, and the number it writes after
    the digits already read as [acc]. *)
Fixpoint all_digits (s : string) : bool :=
  match s with
  | EmptyString => true
  | String c s' => is_digit c && all_digits s'
  end.

Fixpoint decimal_value (s : string) (acc : Z) : Z :=
  match s with
  | EmptyString => acc
  | String c s' => decimal_value s' (10 * acc + digit_val c)
  end.

(** The order of Python on naive datetimes: that of the tuples of fields. *)
Definition fields_lt (a b : Z * Z * Z * Z * Z * Z) : Prop :=
  let '(y, m, d, h, mi, s) := a in
  let '(y', m', d', h', mi', s') := b in
  y < y' \/ y = y' /\
  (m < m' \/ m = m' /\
  (d < d' \/ d = d' /\
  (h < h' \/ h = h' /\
  (mi < mi' \/ mi = mi' /\ s < s')))).

(** The keys of a counter, in insertion order. *)
Definition keys (c : Counter.t) : list string := map fst c.

(** No key occurs twice in any of the eight counters. *)
Definition keys_unique (m : Metrics) : Prop :=
  NoDup (keys (by_user m)) /\ NoDup (keys (by_endpoint m)) /\
  NoDup (keys (by_repo m)) /\ NoDup (keys (by_service m)) /\
  NoDup (keys (by_ip m)) /\ NoDup (keys (by_hour m)) /\
  NoDup (keys (by_status m)) /\ NoDup (keys (custom_flags m)).

(** A list of entries in non-increasing order of count. *)
Definition descending (l : list (string * nat)) : Prop :=
  StronglySorted (fun a b => (snd b <= snd a)%nat) l.

Definition newline : string := String "010" EmptyString.

(** A world with one file in the log directory and no flag file. *)
Definition one_file (t : datetime) (name : string) (lines : list string)
  : World :=
  {| now := t;
     log_dir := fun n => if String.eqb n name then Some lines else None;
     flag_file := None |}.

(** 2024-01-02T00:30:00 *)
Definition clock : datetime := 63839838600.

Definition quoted (s : string) : string :=
  String quote (s ++ String quote EmptyString).

(** A complete line, half a minute within the window of one hour. *)
Definition line_full : string :=
  "10.0.0.1 - alice [01/Jan/2024:23:59:59 +0000] "
  ++ quoted "GET /repository/maven-releases/foo HTTP/1.1"
  ++ " 200 1234" ++ newline.

(** Five tokens, no request and no status code. *)
Definition line_short : string :=
  "10.0.0.2 - bob [01/Jan/2024:23:59:58 +0000]" ++ newline.

(** A timestamp and nothing else: one token. *)
Definition line_bare : string := "[01/Jan/2024:23:59:57]" ++ newline.

(** The timestamp is the cutoff of the window of one hour. *)
Definition line_edge : string :=
  "10.0.0.3 - carol [01/Jan/2024:23:30:00 +0000] "
  ++ quoted "GET /service/rest/v1/status HTTP/1.1"
  ++ " 404 0" ++ newline.

(** One second before that cutoff. *)
Definition line_old : string :=
  "10.0.0.4 - dave [01/Jan/2024:23:29:59 +0000] "
  ++ quoted "GET /old HTTP/1.1" ++ " 200 0" ++ newline.

(** A month that [MONTHS] does not have. *)
Definition line_bad_month : string :=
  "10.0.0.5 - erin [01/Foo/2024:23:59:59 +0000] "
  ++ quoted "GET / HTTP/1.1" ++ " 200 0" ++ newline.

Definition sample_lines : list string :=
  [line_old; line_edge; line_short; line_full].

(** The archive of the first of January holds the sample lines. *)
Definition sample_world : World :=
  one_file clock "request-2024-01-01.log" sample_lines.

(** What the window of one hour counts in the sample world. *)
Definition sample_result : Metrics := {|
  total := 3;
  by_user := [("carol", 1); ("bob", 1); ("alice", 1)]%nat;
  by_endpoint :=
    [("/service/rest/v1/status", 1);
     ("/repository/maven-releases/foo", 1)]%nat;
  by_repo := [("/repository/maven-releases", 1)]%nat;
  by_service := [("/service/rest", 1)]%nat;
  by_ip := [("10.0.0.3", 1); ("10.0.0.2", 1); ("10.0.0.1", 1)]%nat;
  by_hour := [("23", 3)]%nat;
  by_status := [("404", 1); ("", 1); ("200", 1)]%nat;
  custom_flags := []
|}.

End Spec.

(** ** The route of [main.py] *)

Module Route.

Import PyStr Calendar Exporter.

(** What [Popen] and [communicate(timeout=60)] give: the exit code and
    the two outputs of the script, or an exception, the script not
    started or not finished in time. *)
Inductive ScriptRun : Type :=
| Exited (returncode : Z) (out err : string)
| NotStarted
| TimedOut.

(** The content of a response: the exposition of the registry, the text
    of an exception, or an output of the script. *)
Inductive Body : Type :=
| Exposition (p : Payload)
| Message (e : exn)
| Output (s : string).

(** What a request to [/metrics] comes to: a response of status 200, the
    refusal of the query by the validation, or an exception that leaves
    the handler. *)
Inductive Outcome : Type :=
| Response (b : Body)
| Invalid
| Unhandled.

(** [metrics(window, sh)]; a query without [window] has the default. *)
Definition metrics (w w24 : World) (run : ScriptRun)
  (window : option string) (sh : bool) : Outcome :=
  let window := match window with Some s => s | None => "1h" end in
  if negb (window_format window) then Invalid
  else if sh then
    match run with
    | Exited returncode out err =>
        if negb (returncode =? 0) then Response (Output err)
        else Response (Output out)
    | NotStarted | TimedOut => Unhandled
    end
  else
    match export_metrics w w24 window with
    | Ok metrics_output => Response (Exposition metrics_output)
    | Raise e => Response (Message e)
    end.

End Route.

(** ** Notions used to state the further properties *)

Module Notions.

Import PyStr Calendar Exporter Spec.

(** The characters of [s] before its first slash. *)
Definition first_segment (s : string) : string :=
  hd EmptyString (split_on "/" s).

(** A key of the grouped counters: the namespace and one segment. *)
Definition group_key (ns : string) (k : string) : Prop :=
  exists seg, k = ns ++ seg /\ contains "/" seg = false.

(** The number a group of digits writes. *)
Definition number (s : string) : Z := decimal_value s 0.

(** A fragment of the right shape and the thirty-first of February. *)
Definition line_bad_day : string :=
  "10.0.0.6 - fred [31/Feb/2024:23:59:59 +0000]" ++ newline.

(** The two-digit labels of the hours of the day. *)
Definition hour_labels : list string :=
  map (fun h => zero_pad 2 (Z.of_nat h)) (seq 0 24).

(** The name [MONTHS] gives the number [m] to. *)
Definition month_name (m : Z) : string :=
  match m with
  | 1 => "Jan" | 2 => "Feb" | 3 => "Mar" | 4 => "Apr" | 5 => "May"
  | 6 => "Jun" | 7 => "Jul" | 8 => "Aug" | 9 => "Sep" | 10 => "Oct"
  | 11 => "Nov" | 12 => "Dec"
  | _ => EmptyString
  end.

(** The fragment the pattern looks for, written for the given fields and
    followed by [rest]. *)
Definition stamp (y m d hh mm ss : Z) (rest : string) : string :=
  "[" ++ zero_pad 2 d ++ "/" ++ month_name m ++ "/" ++ zero_pad 4 y
  ++ ":" ++ zero_pad 2 hh ++ ":" ++ zero_pad 2 mm ++ ":" ++ zero_pad 2 ss
  ++ rest.

(** [zero_pad w n] is [w] digits that write [n]. *)
Definition pad_reads_back (w : nat) (n : Z) : bool :=
  let s := zero_pad w n in
  all_digits s && (String.length s =? w)%nat && (number s =? n).

(** A line the scan gets past: its timestamp is read or absent, and if it
    falls within the window the line has its first three tokens. *)
Definition passable (cutoff : datetime) (line : string) : Prop :=
  match parse_line_time line with
  | Ok None => True
  | Ok (Some t) => t < cutoff \/ (3 <= List.length (split line))%nat
  | Raise _ => False
  end.

(** No blank character in [s]. *)
Fixpoint blank_free (s : string) : bool :=
  match s with
  | EmptyString => true
  | String c s' => negb (is_space c) && blank_free s'
  end.

(** A token of [str.split()]: not empty and without blank. *)
Definition is_token (s : string) : Prop :=
  s <> EmptyString /\ blank_free s = true.

(** The entries of count [k]. *)
Definition of_count (k : nat) (l : list (string * nat)) : list (string * nat) :=
  filter (fun e => (snd e =? k)%nat) l.

(** A request that carries a flagged text. *)
Definition line_flagged : string :=
  "10.0.0.7 - gina [01/Jan/2024:23:45:00 +0000] "
  ++ quoted "GET /search?q=SQLI_ATTEMPT HTTP/1.1" ++ " 403 0" ++ newline.

(** The live file holds the flagged line, the flag file one flag. *)
Definition flagged_world : World :=
  {| now := clock;
     log_dir := fun n =>
       if String.eqb n "request.log" then Some [line_full; line_flagged]
       else None;
     flag_file := Some ("SQLI_ATTEMPT" ++ newline) |}.


(** A file the aggregation of [h] hours reads in the world [w]: the live
    file or an archive of a date from the day of the cutoff to the day of
    the clock. *)
Definition is_read (w : World) (h : Z) (name : string) : Prop :=
  name = "request.log" \/
  exists day suffix,
    date (now w - 3600 * h) <= day <= date (now w) /\
    (suffix = ".log.gz" \/ suffix = ".log") /\
    name = "request-" ++ strftime_ymd day ++ suffix.

(** The sample world with one more archive, of a date long past, whose
    only line has a month that cannot be read. *)
Definition cluttered_world : World :=
  {| now := clock;
     log_dir := fun n =>
       if String.eqb n "request-2023-12-25.log" then Some [line_bad_month]
       else log_dir sample_world n;
     flag_file := None |}.

End Notions.

(** ** Reading that fails

    The aggregation over a file system whose operations can raise: the
    check that a file exists, its opening, its decompression and its
    decoding.  The log files are decoded with [errors="ignore"], the flag
    file strictly. *)

Module Storage.

Import PyStr Calendar Exporter.

(** The exception of a failed reading, by the name of its class
    ([PermissionError], [EOFError], [BadGzipFile], [UnicodeDecodeError],
    ...). *)
Definition read_error : Type := string.

(** What [exists()], the opening and the iteration give for one log
    file: the lines obtained, then the end of the file or an exception.  A
    failure of [exists()] or of the opening has no line before it. *)
Record Reading : Type := {
  lines_read : list string;
  failure : option read_error
}.

(** The flag file: absent, read as a text, or raising at [exists()] or at
    [read_text()]. *)
Inductive FlagFile : Type :=
| NoFlagFile
| FlagText (text : string)
| FlagUnreadable (e : read_error).

Record Disk : Type := {
  clock_now : datetime;
  files : string -> option Reading;
  flags_txt : FlagFile
}.

(** A call returns, raises one of the exceptions of the program, or is
    left by the exception of a reading. *)
Inductive outcome (A : Type) : Type :=
| Returned (a : A)
| Raised (e : exn)
| Failed (e : read_error).

Arguments Returned {A} a.
Arguments Raised {A} e.
Arguments Failed {A} e.

Definition of_result {A : Type} (r : result A) : outcome A :=
  match r with
  | Ok a => Returned a
  | Raise e => Raised e
  end.

Definition and_then {A B : Type} (m : outcome A) (k : A -> outcome B)
  : outcome B :=
  match m with
  | Returned a => k a
  | Raised e => Raised e
  | Failed e => Failed e
  end.

Fixpoint for_each_read {A S : Type} (body : A -> S -> outcome S)
  (xs : list A) (acc : S) : outcome S :=
  match xs with
  | [] => Returned acc
  | x :: xs' => and_then (body x acc) (for_each_read body xs')
  end.

(** The world of the lines that were read. *)
Definition as_read (d : Disk) : World :=
  {| now := clock_now d;
     log_dir := fun name => option_map lines_read (files d name);
     flag_file :=
       match flags_txt d with
       | FlagText text => Some text
       | NoFlagFile | FlagUnreadable _ => None
       end |}.

(** The loop over [iter_log_file]: the lines obtained are filtered and
    processed one by one, then the reading ends or raises. *)
Definition iter_log_file_read {S : Type} (r : Reading) (cutoff : datetime)
  (body : string -> S -> result S) (acc : S) : outcome S :=
  and_then (of_result (iter_log_file (lines_read r) cutoff body acc))
    (fun acc' =>
       match failure r with
       | None => Returned acc'
       | Some e => Failed e
       end).

Definition scan_file_read (d : Disk) (flags : list string)
  (cutoff : datetime) (name : string) (m : Metrics) : outcome Metrics :=
  match files d name with
  | Some r => iter_log_file_read r cutoff (process_line flags) m
  | None => Returned m
  end.

Definition load_flags_read (d : Disk) : outcome (list string) :=
  match flags_txt d with
  | FlagUnreadable e => Failed e
  | NoFlagFile | FlagText _ => Returned (load_flags (as_read d))
  end.

Definition collect_metrics_read (d : Disk) (window_hours : Z)
  : outcome Metrics :=
  and_then (of_result (sub_hours (clock_now d) window_hours)) (fun cutoff =>
  let day := date cutoff in
  and_then
    (of_result (date_loop (Z.to_nat (date (clock_now d) + 1 - day)) day []))
    (fun dates =>
  and_then (load_flags_read d) (fun flags =>
  and_then
    (for_each_read
       (fun dd m =>
          for_each_read
            (fun suffix m =>
               scan_file_read d flags cutoff ("request-" ++ dd ++ suffix) m)
            [".log.gz"; ".log"] m)
       (sorted dates) fresh)
    (fun m => scan_file_read d flags cutoff "request.log" m)))).



(** The compressed archive of the first of January holds the sample
    lines and is read to its end; there is no flag file. *)
Definition sound_disk : Disk :=
  {| clock_now := Spec.clock;
     files := fun n =>
       if String.eqb n "request-2024-01-01.log.gz"
       then Some {| lines_read := Spec.sample_lines; failure := None |}
       else None;
     flags_txt := NoFlagFile |}.


End Storage.

Import PyStr Calendar Exporter Spec.

(** ** The error monad *)

Lemma bind_ok {A B : Type} (m : result A) (k : A -> result B) (b : B) :
  bind m k = Ok b -> exists a, m = Ok a /\ k a = Ok b.
Proof.
  destruct m as [a|e]; simpl; intros H; [eauto | discriminate].
Qed.

Ltac bind_inv H :=
  let a := fresh "a" in
  let Ha := fresh "Ha" in
  apply bind_ok in H; destruct H as (a & Ha & H).

Lemma for_each_inv {A S : Type} (P : S -> Prop) (body : A -> S -> result S)
  (xs : list A) :
  (forall x acc acc', In x xs -> P acc -> body x acc = Ok acc' -> P acc') ->
  forall acc acc', P acc -> for_each body xs acc = Ok acc' -> P acc'.
Proof.
  induction xs as [|x xs IH]; simpl; intros Hbody acc acc' HP H.
  - now inversion H; subst.
  - bind_inv H. eapply IH; [| | exact H]; eauto.
Qed.

(** ** Text *)

(** A decimal digit is none of the characters that [int] and [rstrip]
    treat apart. *)
Lemma digit_is_plain (c : ascii) :
  is_digit c = true ->
  is_int_space c = false /\ (code c =? 95)%N = false /\
  Ascii.eqb c "h" = false /\ Ascii.eqb c "+" = false /\
  Ascii.eqb c "-" = false.
Proof.
  destruct c as [[] [] [] [] [] [] [] []]; vm_compute; intros H;
    try discriminate H; repeat split.
Qed.

Lemma int_of_digit_head (c : ascii) (r : string) :
  is_digit c = true ->
  int (String c r)
  = unsigned (rstrip_by is_int_space (String c r)).
Proof.
  intros Hc. unfold int. cbn [lstrip_by].
  destruct (digit_is_plain c Hc) as (Hsp & _). rewrite Hsp.
  cbn [rstrip_by].
  destruct (rstrip_by is_int_space r) eqn:E.
  - rewrite Hsp.
    destruct c as [[] [] [] [] [] [] [] []]; try reflexivity;
      vm_compute in Hc; discriminate Hc.
  - destruct c as [[] [] [] [] [] [] [] []]; try reflexivity;
      vm_compute in Hc; discriminate Hc.
Qed.

Lemma rstrip_by_keeps (p : ascii -> bool) (s : string) (c : ascii) :
  p c = false ->
  rstrip_by p (s ++ String c EmptyString) = s ++ String c EmptyString.
Proof.
  intros Hc. induction s as [|a s IH]; cbn [append rstrip_by].
  - now rewrite Hc.
  - rewrite IH. destruct s; reflexivity.
Qed.

Lemma rstrip_by_digits (p : ascii -> bool) (s : string) :
  (forall c, is_digit c = true -> p c = false) ->
  all_digits s = true -> rstrip_by p s = s.
Proof.
  intros Hp. induction s as [|a s IH]; cbn [all_digits rstrip_by]; [reflexivity|].
  intros H. apply andb_prop in H. destruct H as (Ha & Hs).
  rewrite (IH Hs). destruct s; [now rewrite (Hp a Ha) | reflexivity].
Qed.

Lemma rstrip_by_drops (p : ascii -> bool) (s : string) (c : ascii) :
  (forall c, is_digit c = true -> p c = false) ->
  p c = true -> all_digits s = true ->
  rstrip_by p (s ++ String c EmptyString) = s.
Proof.
  intros Hp Hc. induction s as [|a s IH]; cbn [append all_digits rstrip_by].
  - now rewrite Hc.
  - intros H. apply andb_prop in H. destruct H as (Ha & Hs).
    rewrite (IH Hs). destruct s; [now rewrite (Hp a Ha) | reflexivity].
Qed.

Lemma digits_all_digits (s : string) (acc : Z) (n : nat) :
  all_digits s = true ->
  digits s acc n true = Some (decimal_value s acc, (n + String.length s)%nat).
Proof.
  revert acc n. induction s as [|a s IH]; cbn [all_digits digits decimal_value
    String.length]; intros acc n H.
  - now rewrite Nat.add_0_r.
  - apply andb_prop in H. destruct H as (Ha & Hs).
    rewrite Ha, (IH _ _ Hs). do 2 f_equal. lia.
Qed.

Lemma digits_then_letter (s : string) (c : ascii) (acc : Z) (n : nat)
  (b : bool) :
  is_digit c = false -> (code c =? 95)%N = false ->
  all_digits s = true ->
  digits (s ++ String c EmptyString) acc n b = None.
Proof.
  intros Hc Hu. revert acc n b.
  induction s as [|a s IH]; cbn [append all_digits digits]; intros acc n b H.
  - now rewrite Hc, Hu.
  - apply andb_prop in H. destruct H as (Ha & Hs). rewrite Ha. now apply IH.
Qed.

Lemma window_tail_digits (s : string) (c : ascii) :
  all_digits s = true ->
  window_tail (s ++ String c EmptyString)
  = (Ascii.eqb c "h" || Ascii.eqb c "H").
Proof.
  induction s as [|a s IH]; cbn [append all_digits window_tail]; [reflexivity|].
  intros H. apply andb_prop in H. destruct H as (Ha & Hs).
  rewrite (IH Hs), Ha. destruct s; reflexivity.
Qed.

Lemma decimal_value_nonneg (s : string) (acc : Z) :
  all_digits s = true -> 0 <= acc -> 0 <= decimal_value s acc.
Proof.
  revert acc. induction s as [|a s IH]; cbn [all_digits decimal_value];
    intros acc H Hacc; [exact Hacc|].
  apply andb_prop in H. destruct H as (Ha & Hs). apply (IH _ Hs).
  unfold is_digit, in_range in Ha. apply andb_prop in Ha.
  destruct Ha as (Hlo & _). apply N.leb_le in Hlo. unfold digit_val. lia.
Qed.

Lemma rstrip_h_is (c : ascii) :
  existsb (Ascii.eqb c) (list_ascii_of_string "h") = Ascii.eqb c "h".
Proof.
  cbn. apply orb_false_r.
Qed.

(** X18.  Digits followed by a lower-case [h] pass the check of the route
    and are read as the number the digits write, up to the length [int]
    accepts. *)
Lemma lowercase_window_is_parsed (ds : string) :
  all_digits ds = true -> ds <> EmptyString ->
  (String.length ds <= int_max_str_digits)%nat ->
  window_format (ds ++ "h") = true /\
  window_hours (ds ++ "h") = Ok (decimal_value ds 0) /\
  0 <= decimal_value ds 0.
Proof.
  intros Hd Hne Hlen. split; [|split].
  - destruct ds as [|c r]; [congruence|]. cbn [append window_format].
    cbn [all_digits] in Hd. apply andb_prop in Hd. destruct Hd as (Hc & Hr).
    rewrite Hc, (window_tail_digits r "h" Hr). reflexivity.
  - unfold window_hours, rstrip.
    rewrite rstrip_by_drops;
      [| intros c Hc; rewrite rstrip_h_is; apply (digit_is_plain c Hc)
       | reflexivity | exact Hd].
    destruct ds as [|c r]; [congruence|].
    pose proof Hd as Hd'.
    cbn [all_digits] in Hd. apply andb_prop in Hd. destruct Hd as (Hc & Hr).
    rewrite (int_of_digit_head c r Hc).
    rewrite rstrip_by_digits;
      [| intros a Ha; apply (digit_is_plain a Ha) | exact Hd'].
    unfold unsigned. cbn [digits]. rewrite Hc, (digits_all_digits r _ _ Hr).
    cbn [String.length] in Hlen. apply Nat.leb_le in Hlen.
    cbn [Nat.add]. rewrite Hlen. reflexivity.
  - apply decimal_value_nonneg; [exact Hd | lia].
Qed.

(** Digits followed by an upper-case [H] pass the route's check and are
    never read as a number. *)
Lemma uppercase_window_raises (ds : string) :
  all_digits ds = true -> ds <> EmptyString ->
  window_format (ds ++ "H") = true /\
  window_hours (ds ++ "H") = Raise ValueError.
Proof.
  intros Hd Hne. split.
  - destruct ds as [|c r]; [congruence|]. cbn [append window_format].
    cbn [all_digits] in Hd. apply andb_prop in Hd. destruct Hd as (Hc & Hr).
    rewrite Hc, (window_tail_digits r "H" Hr). reflexivity.
  - unfold window_hours, rstrip.
    rewrite rstrip_by_keeps by reflexivity.
    destruct ds as [|c r]; [congruence|].
    pose proof Hd as Hd'.
    cbn [all_digits] in Hd. apply andb_prop in Hd. destruct Hd as (Hc & Hr).
    cbn [append]. rewrite (int_of_digit_head c _ Hc).
    change (String c (r ++ "H")) with (String c r ++ "H").
    rewrite rstrip_by_keeps by reflexivity.
    unfold unsigned. rewrite digits_then_letter; auto.
Qed.

(** ** The calendar *)

Lemma make_ok (y m d h mi s : Z) (t : datetime) :
  make y m d h mi s = Ok t ->
  1 <= y <= 9999 /\ 1 <= m <= 12 /\ 1 <= d <= days_in_month y m /\
  0 <= h <= 23 /\ 0 <= mi <= 59 /\ 0 <= s <= 59 /\
  t = 86400 * ymd2ord y m d + 3600 * h + 60 * mi + s.
Proof.
  unfold make, MINYEAR, MAXYEAR.
  destruct (_ && _) eqn:E; [|discriminate].
  repeat (apply andb_prop in E; destruct E as (E & ?)).
  rewrite ?Z.leb_le in *. intros Ht.
  repeat split; try assumption. congruence.
Qed.

Lemma is_leap_spec (y : Z) :
  is_leap y = true <-> y mod 4 = 0 /\ (y mod 100 <> 0 \/ y mod 400 = 0).
Proof.
  unfold is_leap. rewrite andb_true_iff, orb_true_iff, negb_true_iff.
  rewrite !Z.eqb_eq, Z.eqb_neq. tauto.
Qed.

Lemma days_before_year_succ (y : Z) :
  days_before_year (y + 1)
  = days_before_year y + 365 + (if is_leap y then 1 else 0).
Proof.
  unfold days_before_year. cbv zeta.
  replace (y + 1 - 1) with y by lia.
  destruct (is_leap y) eqn:E.
  - apply is_leap_spec in E. Z.div_mod_to_equations. lia.
  - assert (~ (y mod 4 = 0 /\ (y mod 100 <> 0 \/ y mod 400 = 0))) as N.
    { rewrite <- is_leap_spec. congruence. }
    Z.div_mod_to_equations. lia.
Qed.

Lemma days_before_year_mono (y : Z) (n : nat) :
  days_before_year y + 365 * Z.of_nat n <= days_before_year (y + Z.of_nat n).
Proof.
  induction n as [|n IH].
  - replace (y + Z.of_nat 0) with y by lia. lia.
  - replace (y + Z.of_nat (S n)) with (y + Z.of_nat n + 1) by lia.
    rewrite days_before_year_succ. destruct (is_leap _); lia.
Qed.

Lemma month_cases (m : Z) :
  1 <= m <= 12 ->
  m = 1 \/ m = 2 \/ m = 3 \/ m = 4 \/ m = 5 \/ m = 6 \/
  m = 7 \/ m = 8 \/ m = 9 \/ m = 10 \/ m = 11 \/ m = 12.
Proof. lia. Qed.

Ltac by_month m H :=
  destruct (month_cases m H)
    as [->|[->|[->|[->|[->|[->|[->|[->|[->|[->|[->| ->]]]]]]]]]]].

(** The days of a month end before the next month starts. *)
Lemma days_before_month_step (y m m' : Z) :
  1 <= m -> m < m' -> m' <= 12 ->
  days_before_month y m + days_in_month y m <= days_before_month y m'.
Proof.
  intros H1 H2 H3.
  assert (Hm : 1 <= m <= 12) by lia. assert (Hm' : 1 <= m' <= 12) by lia.
  by_month m Hm; by_month m' Hm';
  try lia; unfold days_before_month, days_in_month; destruct (is_leap y);
    vm_compute; discriminate.
Qed.

Lemma days_in_year (y m d : Z) :
  1 <= m <= 12 -> d <= days_in_month y m ->
  days_before_month y m + d <= 365 + (if is_leap y then 1 else 0).
Proof.
  intros Hm Hd.
  by_month m Hm;
  unfold days_before_month, days_in_month, DAYS_BEFORE_MONTH in *;
    destruct (is_leap y);
    cbn [Z.eqb Pos.eqb Z.ltb Z.compare Pos.compare Pos.compare_cont andb orb]
      in *;
    lia.
Qed.

Lemma days_before_month_nonneg (y m : Z) :
  1 <= m <= 12 -> 0 <= days_before_month y m.
Proof.
  intros Hm.
  by_month m Hm;
  unfold days_before_month, DAYS_BEFORE_MONTH; destruct (_ && _); lia.
Qed.

Lemma ymd2ord_lt (y m d y' m' d' : Z) :
  1 <= m <= 12 -> 1 <= d <= days_in_month y m ->
  1 <= m' <= 12 -> 1 <= d' <= days_in_month y' m' ->
  y < y' \/ y = y' /\ (m < m' \/ m = m' /\ d < d') ->
  ymd2ord y m d < ymd2ord y' m' d'.
Proof.
  intros Hm Hd Hm' Hd' [Hy|(<- & [Hlt|(<- & Hlt)])]; unfold ymd2ord.
  - pose proof (days_in_year y m d Hm (proj2 Hd)) as Hin.
    pose proof (days_before_year_succ y) as Hs.
    pose proof (days_before_year_mono (y + 1) (Z.to_nat (y' - (y + 1)))) as Hmono.
    replace (y + 1 + Z.of_nat (Z.to_nat (y' - (y + 1)))) with y' in Hmono by lia.
    pose proof (days_before_month_nonneg y' m' Hm'). lia.
  - pose proof (days_before_month_step y m m'). lia.
  - lia.
Qed.

Lemma make_lt_of_fields (y m d h mi s y' m' d' h' mi' s' : Z)
  (t t' : datetime) :
  make y m d h mi s = Ok t ->
  make y' m' d' h' mi' s' = Ok t' ->
  fields_lt (y, m, d, h, mi, s) (y', m', d', h', mi', s') -> t < t'.
Proof.
  intros H H'. apply make_ok in H, H'.
  destruct H as (Hy & Hm & Hd & Hh & Hmi & Hs & ->).
  destruct H' as (Hy' & Hm' & Hd' & Hh' & Hmi' & Hs' & ->).
  unfold fields_lt.
  intros [Hl|(<- & [Hl|(<- & [Hl|(<- & Hl)])])].
  - pose proof (ymd2ord_lt y m d y' m' d' Hm Hd Hm' Hd'). lia.
  - pose proof (ymd2ord_lt y m d y m' d' Hm Hd Hm' Hd'). lia.
  - pose proof (ymd2ord_lt y m d y m d' Hm Hd Hm' Hd'). lia.
  - lia.
Qed.

(** The count of seconds orders the datetimes as their fields do. *)
Lemma make_lt (y m d h mi s y' m' d' h' mi' s' : Z) (t t' : datetime) :
  make y m d h mi s = Ok t ->
  make y' m' d' h' mi' s' = Ok t' ->
  (fields_lt (y, m, d, h, mi, s) (y', m', d', h', mi', s') <-> t < t').
Proof.
  intros H H'. split; [now apply make_lt_of_fields|].
  intros Hlt.
  assert (Htri : fields_lt (y, m, d, h, mi, s) (y', m', d', h', mi', s') \/
                 (y = y' /\ m = m' /\ d = d' /\ h = h' /\ mi = mi' /\ s = s') \/
                 fields_lt (y', m', d', h', mi', s') (y, m, d, h, mi, s))
    by (unfold fields_lt; lia).
  destruct Htri as [Hf|[(<- & <- & <- & <- & <- & <-)|Hf]]; [exact Hf| |].
  - rewrite H in H'. inversion H'; subst. lia.
  - pose proof (make_lt_of_fields _ _ _ _ _ _ _ _ _ _ _ _ _ _ H' H Hf). lia.
Qed.

Lemma make_date_hour (y m d h mi s : Z) (t : datetime) :
  make y m d h mi s = Ok t -> date t = ymd2ord y m d /\ hour t = h.
Proof.
  intros H. apply make_ok in H.
  destruct H as (_ & _ & _ & Hh & Hmi & Hs & ->).
  unfold date, hour. split; Z.div_mod_to_equations; lia.
Qed.

(** ** Counters *)

Lemma sum_incr (k : string) (c : Counter.t) :
  Counter.sum (Counter.incr k c) = S (Counter.sum c).
Proof.
  induction c as [|[k' n] c IH]; simpl; [reflexivity|].
  destruct (String.eqb k' k); simpl; [reflexivity|].
  rewrite IH. lia.
Qed.

Lemma get_incr (k : string) (c : Counter.t) :
  Counter.get k (Counter.incr k c) = S (Counter.get k c).
Proof.
  induction c as [|[k' n] c IH]; simpl.
  - now rewrite String.eqb_refl.
  - destruct (String.eqb k' k) eqn:E; simpl; rewrite E; auto.
Qed.

Lemma insert_desc_perm (x : string * nat) (l : list (string * nat)) :
  Permutation (Counter.insert_desc x l) (x :: l).
Proof.
  induction l as [|y l IH]; simpl; [reflexivity|].
  destruct (snd x <? snd y)%nat; [|reflexivity].
  rewrite IH. apply perm_swap.
Qed.

Lemma sort_desc_perm (l : list (string * nat)) :
  Permutation (Counter.sort_desc l) l.
Proof.
  induction l as [|x l IH]; simpl; [reflexivity|].
  rewrite insert_desc_perm. now constructor.
Qed.

Lemma insert_desc_sorted (x : string * nat) (l : list (string * nat)) :
  descending l -> descending (Counter.insert_desc x l).
Proof.
  unfold descending.
  induction l as [|y l IH]; simpl; intros Hs.
  - repeat constructor.
  - inversion Hs as [|? ? Hl Hy]; subst.
    destruct (snd x <? snd y)%nat eqn:E.
    + apply Nat.ltb_lt in E. constructor; [auto|].
      apply Forall_forall. intros z Hz.
      apply (Permutation_in _ (insert_desc_perm x l)) in Hz.
      destruct Hz as [<-|Hz]; [lia|].
      rewrite Forall_forall in Hy. auto.
    + apply Nat.ltb_ge in E. constructor; [exact Hs|].
      constructor; [exact E|].
      rewrite Forall_forall in Hy |- *. intros z Hz.
      specialize (Hy z Hz). lia.
Qed.

Lemma sort_desc_sorted (l : list (string * nat)) :
  descending (Counter.sort_desc l).
Proof.
  induction l as [|x l IH]; simpl.
  - constructor.
  - now apply insert_desc_sorted.
Qed.

Lemma in_skipn {A : Type} (x : A) (n : nat) (l : list A) :
  In x (skipn n l) -> In x l.
Proof.
  intros H. rewrite <- (firstn_skipn n l). apply in_or_app. now right.
Qed.

Lemma in_firstn {A : Type} (x : A) (n : nat) (l : list A) :
  In x (firstn n l) -> In x l.
Proof.
  intros H. rewrite <- (firstn_skipn n l). apply in_or_app. now left.
Qed.

Lemma descending_firstn (l : list (string * nat)) (n : nat) :
  descending l -> descending (firstn n l).
Proof.
  unfold descending. intros Hs. revert n.
  induction Hs as [|x l Hl IH Hx]; intros [|n]; simpl; try constructor.
  - apply IH.
  - rewrite Forall_forall in Hx |- *. intros z Hz.
    apply Hx. eapply in_firstn. exact Hz.
Qed.

Lemma descending_split (l : list (string * nat)) (n : nat) :
  descending l ->
  forall e r, In e (firstn n l) -> In r (skipn n l) -> (snd r <= snd e)%nat.
Proof.
  unfold descending. intros Hs. revert n.
  induction Hs as [|x l Hl IH Hx]; intros n e r He Hr.
  - destruct n; simpl in He; contradiction.
  - destruct n as [|n]; simpl in He, Hr; [contradiction|].
    destruct He as [<-|He].
    + rewrite Forall_forall in Hx. apply Hx.
      eapply in_skipn. exact Hr.
    + eapply IH; eauto.
Qed.

(** What [most_common] returns: the first [n] entries, or all of them,
    each of a count no lower than any entry left out. *)
Lemma most_common_spec (n : nat) (c : Counter.t) :
  List.length (Counter.most_common n c) = Nat.min n (List.length c) /\
  descending (Counter.most_common n c) /\
  exists rest,
    Permutation (Counter.most_common n c ++ rest) (Counter.items c) /\
    forall e r, In e (Counter.most_common n c) -> In r rest ->
                (snd r <= snd e)%nat.
Proof.
  unfold Counter.most_common, Counter.items. split; [|split].
  - rewrite length_firstn, (Permutation_length (sort_desc_perm c)). reflexivity.
  - apply descending_firstn, sort_desc_sorted.
  - exists (skipn n (Counter.sort_desc c)). split.
    + rewrite firstn_skipn. apply sort_desc_perm.
    + apply descending_split, sort_desc_sorted.
Qed.

Lemma incr_keys_In (k x : string) (c : Counter.t) :
  In x (keys (Counter.incr k c)) -> x = k \/ In x (keys c).
Proof.
  unfold keys. induction c as [|[k' n] c IH]; simpl.
  - intros [<-|[]]. now left.
  - destruct (String.eqb k' k); simpl; intros [<-|H]; auto.
    destruct (IH H); auto.
Qed.

Lemma incr_keys_NoDup (k : string) (c : Counter.t) :
  NoDup (keys c) -> NoDup (keys (Counter.incr k c)).
Proof.
  unfold keys. induction c as [|[k' n] c IH]; simpl; intros H.
  - repeat constructor. intros [].
  - inversion H as [|? ? Hk Hc]; subst.
    destruct (String.eqb k' k) eqn:E; simpl; [now constructor|].
    constructor; [|now apply IH].
    intros Hin. apply incr_keys_In in Hin. destruct Hin as [->|Hin]; [|auto].
    rewrite String.eqb_refl in E. discriminate.
Qed.

Lemma NoDup_firstn {A : Type} (n : nat) (l : list A) :
  NoDup l -> NoDup (firstn n l).
Proof.
  intros H. rewrite <- (firstn_skipn n l) in H.
  now apply NoDup_app_remove_r in H.
Qed.

Lemma most_common_keys (n : nat) (c : Counter.t) :
  NoDup (keys c) -> NoDup (keys (Counter.most_common n c)).
Proof.
  unfold keys, Counter.most_common. intros H.
  rewrite <- firstn_map. apply NoDup_firstn.
  apply (Permutation_NoDup (Permutation_sym
           (Permutation_map fst (sort_desc_perm c)))), H.
Qed.

(** ** One line *)

(** Every way [process_line] has of returning: the two fixed tokens are
    there, the timestamp is read again, and each counter is the old one
    with at most one increment. *)
Lemma process_line_ok (flags : list string) (line : string) (m m' : Metrics) :
  process_line flags line m = Ok m' ->
  exists ip user status ts,
    index (split line) 0 = Ok ip /\
    index (split line) 2 = Ok user /\
    (if (8 <? List.length (split line))%nat then index (split line) 8
     else Ok EmptyString) = Ok status /\
    parse_line_time line = Ok ts /\
    total m' = S (total m) /\
    by_ip m' = Counter.incr ip (by_ip m) /\
    by_user m' = Counter.incr user (by_user m) /\
    by_status m' = Counter.incr status (by_status m) /\
    by_hour m' =
      match ts with
      | Some t => Counter.incr (zero_pad 2 (hour t)) (by_hour m)
      | None => by_hour m
      end /\
    (by_endpoint m' = by_endpoint m \/
     exists path, by_endpoint m' = Counter.incr path (by_endpoint m)) /\
    custom_flags m' = count_flags flags line (custom_flags m).
Proof.
  unfold process_line. intros H.
  apply bind_ok in H. destruct H as (ip & Hip & H).
  apply bind_ok in H. destruct H as (user & Huser & H).
  apply bind_ok in H. destruct H as (status & Hstatus & H).
  destruct (count_request line (by_endpoint m) (by_repo m) (by_service m))
    as [[[e r] s]|x] eqn:Hreq.
  - apply bind_ok in H. destruct H as (ts & Hts & H).
    inversion H; subst m'; clear H; simpl.
    exists ip, user, status, ts. repeat (split; [assumption || reflexivity|]).
    split; [|reflexivity]. right.
    unfold count_request in Hreq.
    apply bind_ok in Hreq. destruct Hreq as (req & _ & Hreq).
    apply bind_ok in Hreq. destruct Hreq as ([[meth path] proto] & _ & Hreq).
    inversion Hreq; subst. now exists path.
  - apply bind_ok in H. destruct H as (ts & Hts & H).
    inversion H; subst m'; clear H; simpl.
    exists ip, user, status, ts. repeat (split; [assumption || reflexivity|]).
    split; [|reflexivity]. now left.
Qed.

Lemma process_line_total (flags : list string) (line : string) (m m' : Metrics) :
  process_line flags line m = Ok m' -> total m' = S (total m).
Proof.
  intros H. apply process_line_ok in H.
  destruct H as (ip & user & status & ts & _ & _ & _ & _ & Ht & _). exact Ht.
Qed.

Lemma process_line_sums (flags : list string) (line : string) (m m' : Metrics) :
  sums_agree m -> process_line flags line m = Ok m' -> sums_agree m'.
Proof.
  unfold sums_agree. intros (Hs & Hu & Hi & He) H.
  apply process_line_ok in H.
  destruct H as (ip & user & status & ts & _ & _ & _ & _ & Ht & Hip & Huser
                 & Hstatus & _ & Hend & _).
  rewrite Ht, Hip, Huser, Hstatus, !sum_incr.
  repeat split; try congruence.
  destruct Hend as [->|[path ->]]; [|rewrite sum_incr]; lia.
Qed.

Lemma process_line_hours (flags : list string) (line : string) (m m' : Metrics)
  (t : datetime) :
  parse_line_time line = Ok (Some t) ->
  Counter.sum (by_hour m) = total m ->
  process_line flags line m = Ok m' ->
  Counter.sum (by_hour m') = total m'.
Proof.
  intros Hp Hm H. apply process_line_ok in H.
  destruct H as (ip & user & status & ts & _ & _ & _ & Hts & Ht & _ & _
                 & _ & Hh & _).
  rewrite Hp in Hts. inversion Hts; subst ts.
  rewrite Hh, Ht, sum_incr. congruence.
Qed.

(** X20.  A counted line whose quoted request cannot be read leaves the
    three counters of the request as they were and is counted everywhere
    else. *)
Lemma unparsed_request_is_still_counted (flags : list string) (line : string)
  (m m' : Metrics) (e : exn) :
  count_request line (by_endpoint m) (by_repo m) (by_service m) = Raise e ->
  process_line flags line m = Ok m' ->
  by_endpoint m' = by_endpoint m /\ by_repo m' = by_repo m /\
  by_service m' = by_service m /\
  total m' = S (total m) /\
  Counter.sum (by_ip m') = S (Counter.sum (by_ip m)) /\
  Counter.sum (by_user m') = S (Counter.sum (by_user m)) /\
  Counter.sum (by_status m') = S (Counter.sum (by_status m)).
Proof.
  intros Hreq H. unfold process_line in H. rewrite Hreq in H.
  apply bind_ok in H. destruct H as (ip & _ & H).
  apply bind_ok in H. destruct H as (user & _ & H).
  apply bind_ok in H. destruct H as (status & _ & H).
  apply bind_ok in H. destruct H as (ts & _ & H).
  inversion H; subst m'; clear H. cbn. rewrite !sum_incr. repeat split.
Qed.

(** A line of three tokens or more that carries a readable timestamp is
    processed to the end. *)
Lemma process_line_total_function (flags : list string) (line : string)
  (m : Metrics) (t : datetime) :
  (3 <= List.length (split line))%nat ->
  parse_line_time line = Ok (Some t) ->
  exists m', process_line flags line m = Ok m'.
Proof.
  intros Hlen Hp. unfold process_line.
  destruct (split line) as [|p0 [|p1 [|p2 parts]]] eqn:Hparts;
    simpl in Hlen; try lia.
  unfold index at 1 2. simpl nth_error. simpl bind.
  destruct (8 <? _)%nat eqn:E.
  - apply Nat.ltb_lt in E. unfold index.
    destruct (nth_error (p0 :: p1 :: p2 :: parts) 8) eqn:En.
    + simpl bind.
      destruct (match count_request _ _ _ _ with Ok c => c | Raise _ => _ end)
        as [[ce cr] cs].
      rewrite Hp. simpl. eexists; reflexivity.
    + apply nth_error_None in En. simpl in En. lia.
  - simpl bind.
    destruct (match count_request _ _ _ _ with Ok c => c | Raise _ => _ end)
      as [[ce cr] cs].
    rewrite Hp. simpl. eexists; reflexivity.
Qed.

Lemma count_flags_keys (flags : list string) (line : string) (c : Counter.t) :
  NoDup (keys c) -> NoDup (keys (count_flags flags line c)).
Proof.
  unfold count_flags. revert c.
  induction flags as [|f flags IH]; simpl; intros c H; [exact H|].
  apply IH. destruct (contains f line); [now apply incr_keys_NoDup | exact H].
Qed.

Lemma process_line_keys (flags : list string) (line : string) (m m' : Metrics) :
  keys_unique m -> process_line flags line m = Ok m' -> keys_unique m'.
Proof.
  unfold keys_unique.
  intros (Hu & He & Hr & Hs & Hi & Hh & Hst & Hf) H.
  unfold process_line in H.
  apply bind_ok in H. destruct H as (ip & _ & H).
  apply bind_ok in H. destruct H as (user & _ & H).
  apply bind_ok in H. destruct H as (status & _ & H).
  assert (Hreq : forall ce cr cs,
             (match count_request line (by_endpoint m) (by_repo m) (by_service m)
              with Ok c => c | Raise _ => (by_endpoint m, by_repo m, by_service m)
              end) = (ce, cr, cs) ->
             NoDup (keys ce) /\ NoDup (keys cr) /\ NoDup (keys cs)).
  { intros ce cr cs. unfold count_request.
    destruct (index (split_on quote line) 1) as [req|]; cbn [bind];
      [|intros [= <- <- <-]; auto].
    destruct (unpack3 (split req)) as [[[meth path] proto]|]; cbn [bind];
      [|intros [= <- <- <-]; auto].
    intros [= <- <- <-]. split; [now apply incr_keys_NoDup|].
    split.
    - destruct (startswith path "/repository/"); [now apply incr_keys_NoDup|auto].
    - destruct (startswith path "/service/"); [now apply incr_keys_NoDup|auto]. }
  destruct (match count_request _ _ _ _ with Ok c => c | Raise _ => _ end)
    as [[ce cr] cs].
  destruct (Hreq ce cr cs eq_refl) as (Hce & Hcr & Hcs).
  apply bind_ok in H. destruct H as (ts & _ & H).
  inversion H; subst m'; clear H. cbn.
  repeat split; auto using incr_keys_NoDup, count_flags_keys.
  destruct ts; auto using incr_keys_NoDup.
Qed.


(** ** One file *)

Lemma iter_log_file_inv {S : Type} (P : S -> Prop) (cutoff : datetime)
  (body : string -> S -> result S) (lines : list string) :
  (forall line t acc acc',
      In line lines -> parse_line_time line = Ok (Some t) -> cutoff <= t ->
      P acc -> body line acc = Ok acc' -> P acc') ->
  forall acc acc',
    P acc -> iter_log_file lines cutoff body acc = Ok acc' -> P acc'.
Proof.
  induction lines as [|line lines IH]; simpl; intros Hbody acc acc' HP H.
  - now inversion H; subst.
  - apply bind_ok in H. destruct H as (ts & Hts & H).
    apply bind_ok in H. destruct H as (acc1 & H1 & H).
    eapply IH; [| |exact H]; [eauto|].
    destruct ts as [t|]; [|now inversion H1; subst].
    unfold geb in H1. destruct (cutoff <=? t) eqn:E.
    + apply Z.leb_le in E. eapply Hbody; eauto.
    + now inversion H1; subst.
Qed.

(** A scan that returns has read every timestamp of the file, so the
    generator alone returns on it too: it yields the lines that pass the
    test, in order. *)
Lemma iter_log_file_yields {S : Type} (cutoff : datetime)
  (body : string -> S -> result S) (lines : list string) (acc acc' : S)
  (ys0 : list string) :
  iter_log_file lines cutoff body acc = Ok acc' ->
  iter_log_file lines cutoff (fun line acc => Ok (acc ++ [line])%list) ys0
  = Ok (ys0 ++ filter (in_window cutoff) lines)%list.
Proof.
  revert acc ys0. induction lines as [|line lines IH]; simpl; intros acc ys0 H.
  - now rewrite app_nil_r.
  - apply bind_ok in H. destruct H as (ts & Hts & H).
    apply bind_ok in H. destruct H as (acc1 & H1 & H).
    unfold in_window at 1. rewrite Hts. simpl bind.
    destruct ts as [t|]; simpl bind; [|eauto].
    destruct (geb t cutoff); simpl bind; [|eauto].
    erewrite IH by exact H. now rewrite <- app_assoc.
Qed.

Lemma iter_log_file_total (flags : list string) (cutoff : datetime)
  (lines : list string) (m m' : Metrics) :
  iter_log_file lines cutoff (process_line flags) m = Ok m' ->
  total m' = (total m + List.length (filter (in_window cutoff) lines))%nat.
Proof.
  revert m. induction lines as [|line lines IH]; simpl; intros m H.
  - inversion H. lia.
  - apply bind_ok in H. destruct H as (ts & Hts & H).
    apply bind_ok in H. destruct H as (m1 & H1 & H).
    apply IH in H. rewrite H. unfold in_window at 2. rewrite Hts.
    destruct ts as [t|]; [|inversion H1; subst; lia].
    destruct (geb t cutoff).
    + apply process_line_total in H1. simpl. lia.
    + inversion H1; subst. lia.
Qed.

(** ** The whole scan *)

Lemma scan_file_inv (P : Metrics -> Prop) (w : World) (flags : list string)
  (cutoff : datetime) (name : string) :
  (forall line t m m',
      parse_line_time line = Ok (Some t) -> cutoff <= t ->
      P m -> process_line flags line m = Ok m' -> P m') ->
  forall m m', P m -> scan_file w flags cutoff name m = Ok m' -> P m'.
Proof.
  intros Hbody m m' HP H. unfold scan_file in H.
  destruct (log_dir w name) as [lines|]; [|now inversion H; subst].
  eapply iter_log_file_inv; [| exact HP | exact H].
  intros line t acc acc' _. apply Hbody.
Qed.

(** A property of the counters that holds of the fresh ones and that
    every counted line keeps, holds of what the aggregation returns. *)
Lemma collect_metrics_inv (P : Metrics -> Prop) (w : World) (h : Z)
  (r : Metrics) :
  P fresh ->
  (forall flags line t m m',
      parse_line_time line = Ok (Some t) ->
      P m -> process_line flags line m = Ok m' -> P m') ->
  collect_metrics w h = Ok r -> P r.
Proof.
  intros H0 Hbody H. unfold collect_metrics in H.
  apply bind_ok in H. destruct H as (cutoff & _ & H).
  apply bind_ok in H. destruct H as (dates & _ & H).
  apply bind_ok in H. destruct H as (m & Hm & H).
  assert (Hscan : forall name m m',
             P m -> scan_file w (load_flags w) cutoff name m = Ok m' -> P m').
  { intros name. apply scan_file_inv. intros line t a a' Hp _. eapply Hbody, Hp. }
  eapply Hscan; [|exact H].
  eapply for_each_inv; [| exact H0 | exact Hm].
  intros d acc acc' _ Hacc Hd.
  eapply for_each_inv; [| exact Hacc | exact Hd].
  intros suffix a a' _. apply Hscan.
Qed.

Lemma scan_file_total (w : World) (flags : list string) (cutoff : datetime)
  (name : string) (m m' : Metrics) :
  scan_file w flags cutoff name m = Ok m' ->
  total m' = (total m + file_count w cutoff name)%nat.
Proof.
  unfold scan_file, file_count. destruct (log_dir w name) as [lines|].
  - apply iter_log_file_total.
  - intros H. inversion H. lia.
Qed.

Lemma archives_total (w : World) (flags : list string) (cutoff : datetime)
  (ds : list string) (m m' : Metrics) :
  for_each
    (fun d m =>
       for_each
         (fun suffix m => scan_file w flags cutoff ("request-" ++ d ++ suffix) m)
         [".log.gz"; ".log"] m)
    ds m = Ok m' ->
  total m' = (total m + list_sum (map (day_count w cutoff) ds))%nat.
Proof.
  revert m. induction ds as [|d ds IH]; cbn [for_each]; intros m H.
  - inversion H. cbn. lia.
  - apply bind_ok in H. destruct H as (m1 & H1 & H).
    apply bind_ok in H1. destruct H1 as (m2 & H2 & H1).
    apply bind_ok in H1. destruct H1 as (m3 & H3 & H1).
    inversion H1; subst m3; clear H1.
    apply scan_file_total in H2, H3. apply IH in H.
    change (list_sum (map (day_count w cutoff) (d :: ds)))
      with (day_count w cutoff d + list_sum (map (day_count w cutoff) ds))%nat.
    unfold day_count at 1. lia.
Qed.

(** The total of an aggregation that returns: the lines within the window
    of the archives of the enumerated dates and of the live file. *)
Lemma collect_metrics_total (w : World) (h : Z) (r : Metrics) :
  collect_metrics w h = Ok r ->
  exists cutoff dates,
    sub_hours (now w) h = Ok cutoff /\
    date_loop (Z.to_nat (date (now w) + 1 - date cutoff)) (date cutoff) []
    = Ok dates /\
    total r = (list_sum (map (day_count w cutoff) (sorted dates))
               + file_count w cutoff "request.log")%nat.
Proof.
  unfold collect_metrics. intros H.
  apply bind_ok in H. destruct H as (cutoff & Hc & H).
  apply bind_ok in H. destruct H as (dates & Hd & H).
  apply bind_ok in H. destruct H as (m & Hm & H).
  exists cutoff, dates. repeat split; try assumption.
  apply archives_total in Hm. apply scan_file_total in H.
  rewrite H, Hm. reflexivity.
Qed.

(** ** The dates *)

Lemma existsb_eqb_In (x : string) (s : list string) :
  existsb (String.eqb x) s = true <-> In x s.
Proof.
  rewrite existsb_exists. split.
  - intros (y & Hy & E). apply String.eqb_eq in E. now subst.
  - intros H. exists x. split; [exact H | apply String.eqb_refl].
Qed.

Lemma set_add_In (x y : string) (s : list string) :
  In y (set_add x s) <-> y = x \/ In y s.
Proof.
  unfold set_add. destruct (existsb (String.eqb x) s) eqn:E.
  - apply existsb_eqb_In in E. split; [auto|]. intros [->|H]; auto.
  - simpl. split; intros [H|H]; auto.
Qed.

Lemma set_add_NoDup (x : string) (s : list string) :
  NoDup s -> NoDup (set_add x s).
Proof.
  unfold set_add. intros H. destruct (existsb (String.eqb x) s) eqn:E; [exact H|].
  constructor; [|exact H]. intros Hin. apply existsb_eqb_In in Hin. congruence.
Qed.

Lemma date_loop_spec (n : nat) (day : Z) (acc ds : list string) :
  date_loop n day acc = Ok ds ->
  (NoDup acc -> NoDup ds) /\
  forall x, In x ds <->
            In x acc \/
            exists k, (k < n)%nat /\ x = strftime_ymd (day + Z.of_nat k).
Proof.
  revert day acc. induction n as [|n IH]; simpl; intros day acc H.
  - inversion H; subst. split; [auto|]. intros x. split; [auto|].
    intros [Hx|(k & Hk & _)]; [exact Hx | lia].
  - apply bind_ok in H. destruct H as (day' & Hday & H).
    unfold next_day in Hday. destruct (MAXORDINAL <? day + 1); [discriminate|].
    inversion Hday; subst day'; clear Hday.
    apply IH in H. destruct H as (Hnd & Hin). split.
    + intros Hacc. apply Hnd, set_add_NoDup, Hacc.
    + intros x. rewrite Hin, set_add_In. split.
      * intros [[->|Hx]|(k & Hk & ->)].
        -- right. exists 0%nat. split; [lia|]. f_equal. lia.
        -- now left.
        -- right. exists (S k). split; [lia|]. f_equal. lia.
      * intros [Hx|(k & Hk & ->)]; [auto|].
        destruct k as [|k].
        -- left. left. f_equal. lia.
        -- right. exists k. split; [lia|]. f_equal. lia.
Qed.

Lemma insert_sorted_perm (x : string) (l : list string) :
  Permutation (insert_sorted x l) (x :: l).
Proof.
  induction l as [|y l IH]; simpl; [reflexivity|].
  destruct (String.leb x y); [reflexivity|].
  rewrite IH. apply perm_swap.
Qed.

Lemma sorted_perm (s : list string) : Permutation (sorted s) s.
Proof.
  induction s as [|x s IH]; simpl; [reflexivity|].
  rewrite insert_sorted_perm. now constructor.
Qed.

(** ** Widening *)

Lemma filter_length_le {A : Type} (f g : A -> bool) (l : list A) :
  (forall x, f x = true -> g x = true) ->
  (List.length (filter f l) <= List.length (filter g l))%nat.
Proof.
  intros Hfg. induction l as [|x l IH]; simpl; [lia|].
  destruct (f x) eqn:Ef.
  - rewrite (Hfg x Ef). simpl. lia.
  - destruct (g x); simpl; lia.
Qed.

Lemma in_window_widen (c1 c2 : datetime) (line : string) :
  c2 <= c1 -> in_window c1 line = true -> in_window c2 line = true.
Proof.
  unfold in_window, geb. intros Hc.
  destruct (parse_line_time line) as [[t|]|]; try discriminate.
  rewrite !Z.leb_le. lia.
Qed.

Lemma file_count_widen (w : World) (c1 c2 : datetime) (name : string) :
  c2 <= c1 -> (file_count w c1 name <= file_count w c2 name)%nat.
Proof.
  intros Hc. unfold file_count. destruct (log_dir w name); [|lia].
  apply filter_length_le. intros x. now apply in_window_widen.
Qed.

Lemma day_count_widen (w : World) (c1 c2 : datetime) (d : string) :
  c2 <= c1 -> (day_count w c1 d <= day_count w c2 d)%nat.
Proof.
  intros Hc. unfold day_count.
  pose proof (file_count_widen w c1 c2 ("request-" ++ d ++ ".log.gz") Hc).
  pose proof (file_count_widen w c1 c2 ("request-" ++ d ++ ".log") Hc).
  lia.
Qed.

Lemma list_sum_incl {A : Type} (f g : A -> nat) (l1 l2 : list A) :
  NoDup l1 -> incl l1 l2 -> (forall x, (f x <= g x)%nat) ->
  (list_sum (map f l1) <= list_sum (map g l2))%nat.
Proof.
  intros Hnd. revert l2. induction Hnd as [|x l1 Hx Hnd IH]; intros l2 Hincl Hfg.
  - simpl. lia.
  - assert (Hin : In x l2) by (apply Hincl; now left).
    apply in_split in Hin. destruct Hin as (a & b & ->).
    assert (Hincl' : incl l1 (a ++ b)).
    { intros y Hy. assert (Hy2 : In y (a ++ x :: b)) by (apply Hincl; now right).
      apply in_app_or in Hy2. apply in_or_app.
      destruct Hy2 as [Hy2|[->|Hy2]]; auto. contradiction. }
    specialize (IH _ Hincl' Hfg). specialize (Hfg x).
    rewrite map_app, list_sum_app in *. simpl. lia.
Qed.

Lemma sub_hours_ok (t : datetime) (h : Z) (c : datetime) :
  sub_hours t h = Ok c -> c = t - 3600 * h.
Proof.
  unfold sub_hours. destruct (999999999 <? _); [discriminate|].
  destruct (_ || _); [discriminate|]. now inversion 1.
Qed.

(** ** The export *)

Lemma export_metrics_ok (w w24 : World) (window : string) (p : Payload) :
  export_metrics w w24 window = Ok p ->
  exists hours data data24,
    window_hours window = Ok hours /\
    collect_metrics w hours = Ok data /\
    collect_metrics w24 24 = Ok data24 /\
    p = {|
      requests_total := total data;
      requests_total_last_24h := total data24;
      requests_by_user := Counter.items (by_user data);
      requests_by_endpoint := Counter.most_common 50 (by_endpoint data);
      requests_by_repository := Counter.items (by_repo data);
      requests_by_service := Counter.items (by_service data);
      requests_by_source_ip := Counter.items (by_ip data);
      requests_by_hour := Counter.items (by_hour data);
      status_code_total := Counter.items (by_status data);
      custom_flag_matches := Counter.items (custom_flags data)
    |}.
Proof.
  unfold export_metrics. intros H.
  apply bind_ok in H. destruct H as (hours & Hh & H).
  apply bind_ok in H. destruct H as (data & Hd & H).
  apply bind_ok in H. destruct H as (data24 & Hd24 & H).
  exists hours, data, data24. inversion H. auto.
Qed.

(** A line without a timestamp is no error: the extractor returns nothing. *)
Lemma parse_line_time_no_match (line : string) :
  LOG_PATTERN_search line = None -> parse_line_time line = Ok None.
Proof.
  unfold parse_line_time. now intros ->.
Qed.

(** X19.  The extractor returns nothing exactly when no fragment of the
    line has the shape of the pattern. *)
Lemma parse_line_time_none_iff (line : string) :
  parse_line_time line = Ok None <-> LOG_PATTERN_search line = None.
Proof.
  split; [|apply parse_line_time_no_match].
  unfold parse_line_time.
  destruct (LOG_PATTERN_search line) as [[[[[[day mon] year] hh] mm] ss]|];
    [|reflexivity].
  intros H.
  repeat (apply bind_ok in H; let x := fresh in destruct H as (x & _ & H)).
  discriminate H.
Qed.

(** The counters of a result have no key twice, so that the samples of a
    gauge are the entries of its counter. *)
Lemma collect_metrics_keys (w : World) (h : Z) (r : Metrics) :
  collect_metrics w h = Ok r -> keys_unique r.
Proof.
  apply collect_metrics_inv.
  - unfold keys_unique. cbn. repeat split; constructor.
  - intros flags line t m m' _. apply process_line_keys.
Qed.

(** ** The properties *)

(** C1.  A line that passes the window filter with fewer than three
    tokens is not counted with an absent status code: reading its third
    token raises [IndexError], outside the [try] block, and the
    aggregation that meets such a line returns nothing. *)
Theorem line_without_user_token_aborts :
  in_window (clock - 3600) line_bare = true /\
  List.length (split line_bare) = 1%nat /\
  (forall flags m, process_line flags line_bare m = Raise IndexError) /\
  collect_metrics (one_file clock "request.log" [line_full; line_bare]) 1
  = Raise IndexError.
Proof.
  repeat split; try (vm_compute; reflexivity).
Qed.

(** C2.  A fragment of the right shape whose month is not one of the
    twelve names makes the extractor raise [KeyError] instead of
    returning nothing, and the scan of a file with such a line fails,
    whatever the window. *)
Theorem unknown_month_raises :
  LOG_PATTERN_search line_bad_month
  = Some ("01", "Foo", "2024", "23", "59", "59") /\
  parse_line_time line_bad_month = Raise KeyError /\
  yielded [line_full; line_bad_month] (clock - 3600) = Raise KeyError /\
  collect_metrics (one_file clock "request.log" [line_full; line_bad_month]) 1
  = Raise KeyError.
Proof.
  repeat split; vm_compute; reflexivity.
Qed.

(** C3.  The window [6H], which the route accepts, is not parsed into six
    hours: only a lower-case [h] is stripped, [int] raises [ValueError]
    and no metric is collected; [6h] is parsed. *)
Theorem uppercase_window_is_not_parsed :
  window_format "6H" = true /\
  window_hours "6H" = Raise ValueError /\
  (forall w w24, export_metrics w w24 "6H" = Raise ValueError) /\
  window_format "6h" = true /\
  window_hours "6h" = Ok 6.
Proof.
  repeat split; vm_compute; reflexivity.
Qed.

(** C4.  In every result of the aggregation the counts by status code, by
    user and by source address each add up to the total, and the counts by
    endpoint add up to the total at most. *)
Theorem breakdown_sums (w : World) (h : Z) (r : Metrics) :
  collect_metrics w h = Ok r ->
  Counter.sum (by_status r) = total r /\
  Counter.sum (by_user r) = total r /\
  Counter.sum (by_ip r) = total r /\
  (Counter.sum (by_endpoint r) <= total r)%nat.
Proof.
  intros H. change (sums_agree r).
  eapply collect_metrics_inv; [| |exact H].
  - unfold sums_agree. simpl. lia.
  - intros flags line t m m' _. apply process_line_sums.
Qed.

Lemma breakdown_sums_witness :
  collect_metrics sample_world 1 = Ok sample_result /\
  Counter.sum (by_status sample_result) = total sample_result /\
  Counter.sum (by_user sample_result) = total sample_result /\
  Counter.sum (by_ip sample_result) = total sample_result /\
  (Counter.sum (by_endpoint sample_result) <= total sample_result)%nat.
Proof.
  split; [vm_compute; reflexivity|].
  apply (breakdown_sums sample_world 1 sample_result).
  vm_compute. reflexivity.
Defined.

(** C5.  Of the lines of a scanned file, those counted are the ones whose
    timestamp is there and not before the cutoff: a line stamped before
    the cutoff is never counted, a line stamped at the cutoff is. *)
Theorem counted_iff_within_window (w : World) (flags : list string)
  (cutoff : datetime) (name : string) (lines : list string) (m m' : Metrics) :
  log_dir w name = Some lines ->
  scan_file w flags cutoff name m = Ok m' ->
  exists ys,
    yielded lines cutoff = Ok ys /\
    total m' = (total m + List.length ys)%nat /\
    (forall line,
        In line ys <->
        In line lines /\
        exists t, parse_line_time line = Ok (Some t) /\ cutoff <= t) /\
    (forall line t,
        parse_line_time line = Ok (Some t) -> t < cutoff -> ~ In line ys) /\
    (forall line,
        In line lines -> parse_line_time line = Ok (Some cutoff) ->
        In line ys).
Proof.
  intros Hfile H. unfold scan_file in H. rewrite Hfile in H.
  exists (filter (in_window cutoff) lines).
  assert (Hin : forall line,
             In line (filter (in_window cutoff) lines) <->
             In line lines /\
             exists t, parse_line_time line = Ok (Some t) /\ cutoff <= t).
  { intros line. rewrite filter_In. unfold in_window, geb.
    split; intros (Hl & Hw); (split; [exact Hl|]).
    - destruct (parse_line_time line) as [[t|]|]; try discriminate.
      exists t. split; [reflexivity | now apply Z.leb_le].
    - destruct Hw as (t & -> & Ht). now apply Z.leb_le. }
  split; [|split; [|split; [|split]]].
  - unfold yielded. apply (iter_log_file_yields _ _ _ _ _ [] H).
  - now apply iter_log_file_total in H.
  - exact Hin.
  - intros line t Hp Ht Hy. apply Hin in Hy.
    destruct Hy as (_ & t' & Hp' & Ht'). rewrite Hp in Hp'.
    inversion Hp'. lia.
  - intros line Hl Hp. apply Hin. split; [exact Hl|].
    exists cutoff. split; [exact Hp | lia].
Qed.

Lemma counted_iff_within_window_witness :
  scan_file sample_world [] (clock - 3600) "request-2024-01-01.log" fresh
  = Ok sample_result /\
  exists ys,
    yielded sample_lines (clock - 3600) = Ok ys /\
    total sample_result = List.length ys /\
    In line_edge ys /\ ~ In line_old ys.
Proof.
  split; [vm_compute; reflexivity|].
  destruct (counted_iff_within_window sample_world [] (clock - 3600)
              "request-2024-01-01.log" sample_lines fresh sample_result)
    as (ys & Hy & Ht & _ & Hold & Hedge).
  - vm_compute. reflexivity.
  - vm_compute. reflexivity.
  - exists ys.
    split; [exact Hy|].
    split; [exact Ht|].
    split.
    + apply Hedge; [vm_compute; auto | vm_compute; reflexivity].
    + apply (Hold line_old (clock - 3601)); [vm_compute; reflexivity | lia].
Defined.

(** C6.  With the same clock, the same files and the same flag file, a
    longer window never gives a smaller total. *)
Theorem widening_never_decreases_total (w : World) (h1 h2 : Z)
  (r1 r2 : Metrics) :
  h1 < h2 ->
  collect_metrics w h1 = Ok r1 ->
  collect_metrics w h2 = Ok r2 ->
  (total r1 <= total r2)%nat.
Proof.
  intros Hlt H1 H2.
  apply collect_metrics_total in H1, H2.
  destruct H1 as (c1 & ds1 & Hc1 & Hd1 & ->).
  destruct H2 as (c2 & ds2 & Hc2 & Hd2 & ->).
  apply sub_hours_ok in Hc1, Hc2.
  assert (Hc : c2 <= c1) by lia.
  assert (Hday : date c2 <= date c1).
  { unfold date. apply Z.div_le_mono; lia. }
  apply date_loop_spec in Hd1, Hd2.
  destruct Hd1 as (Hnd1 & Hin1). destruct Hd2 as (_ & Hin2).
  pose proof (file_count_widen w c1 c2 "request.log" Hc) as Hlive.
  assert (Harch : (list_sum (map (day_count w c1) (sorted ds1))
                   <= list_sum (map (day_count w c2) (sorted ds2)))%nat).
  { apply list_sum_incl.
    - apply (Permutation_NoDup (Permutation_sym (sorted_perm ds1))).
      apply Hnd1. constructor.
    - intros x Hx.
      apply (Permutation_in _ (sorted_perm ds1)) in Hx.
      apply (Permutation_in _ (Permutation_sym (sorted_perm ds2))).
      apply Hin1 in Hx. destruct Hx as [[]|(k & Hk & ->)].
      apply Hin2. right.
      exists (k + Z.to_nat (date c1 - date c2))%nat. split; [lia|].
      f_equal. lia.
    - intros d. now apply day_count_widen. }
  lia.
Qed.

Lemma widening_never_decreases_total_witness :
  1 < 24 /\
  collect_metrics sample_world 1 = Ok sample_result /\
  (exists r2, collect_metrics sample_world 24 = Ok r2 /\
              (total sample_result <= total r2)%nat /\ total r2 = 4%nat).
Proof.
  split; [lia|]. split; [vm_compute; reflexivity|].
  destruct (collect_metrics sample_world 24) as [r2|e] eqn:E;
    [|vm_compute in E; discriminate].
  exists r2. split; [reflexivity|]. split.
  - apply (widening_never_decreases_total sample_world 1 24 sample_result r2);
      [lia | vm_compute; reflexivity | exact E].
  - vm_compute in E. inversion E. reflexivity.
Defined.

(** C7.  The gauge by endpoint carries fifty samples at most, of
    distinct labels: the entries of highest count, every entry left out
    having a count no higher than any entry exposed; the other breakdowns
    are exposed whole. *)
Theorem endpoint_breakdown_is_top_50 (w w24 : World) (window : string)
  (p : Payload) :
  export_metrics w w24 window = Ok p ->
  exists hours data,
    window_hours window = Ok hours /\
    collect_metrics w hours = Ok data /\
    (List.length (requests_by_endpoint p) <= 50)%nat /\
    List.length (requests_by_endpoint p)
    = Nat.min 50 (List.length (Counter.items (by_endpoint data))) /\
    descending (requests_by_endpoint p) /\
    NoDup (keys (requests_by_endpoint p)) /\
    (exists rest,
        Permutation (requests_by_endpoint p ++ rest)
          (Counter.items (by_endpoint data)) /\
        forall e r, In e (requests_by_endpoint p) -> In r rest ->
                    (snd r <= snd e)%nat) /\
    requests_by_user p = Counter.items (by_user data) /\
    requests_by_repository p = Counter.items (by_repo data) /\
    requests_by_service p = Counter.items (by_service data) /\
    requests_by_source_ip p = Counter.items (by_ip data) /\
    requests_by_hour p = Counter.items (by_hour data) /\
    status_code_total p = Counter.items (by_status data) /\
    custom_flag_matches p = Counter.items (custom_flags data).
Proof.
  intros H. apply export_metrics_ok in H.
  destruct H as (hours & data & data24 & Hh & Hd & _ & ->).
  exists hours, data. cbn [requests_by_endpoint requests_by_user
    requests_by_repository requests_by_service requests_by_source_ip
    requests_by_hour status_code_total custom_flag_matches].
  destruct (most_common_spec 50 (by_endpoint data)) as (Hlen & Hdesc & Hrest).
  split; [exact Hh|]. split; [exact Hd|].
  split; [rewrite Hlen; apply Nat.le_min_l|].
  split; [exact Hlen|]. split; [exact Hdesc|].
  split; [apply most_common_keys, (collect_metrics_keys w hours data Hd)|].
  split; [exact Hrest|].
  repeat split.
Qed.

Lemma endpoint_breakdown_is_top_50_witness :
  exists p,
    export_metrics sample_world sample_world "1h" = Ok p /\
    (List.length (requests_by_endpoint p) <= 50)%nat /\
    requests_by_user p = Counter.items (by_user sample_result).
Proof.
  destruct (export_metrics sample_world sample_world "1h") as [p|e] eqn:E;
    [|vm_compute in E; discriminate].
  exists p. split; [reflexivity|].
  destruct (endpoint_breakdown_is_top_50 sample_world sample_world "1h" p E)
    as (hours & data & Hh & Hd & Hle & _ & _ & _ & _ & Hu & _).
  split; [exact Hle|].
  rewrite Hu. vm_compute in Hh. inversion Hh; subst hours.
  assert (Hs : collect_metrics sample_world 1 = Ok sample_result)
    by (vm_compute; reflexivity).
  rewrite Hs in Hd. inversion Hd. reflexivity.
Defined.




(** C9.  In every result of the aggregation the counts by hour add up to
    the total: a counted line has a timestamp, which is read again with
    the same outcome. *)
Theorem hourly_counts_sum_to_total (w : World) (h : Z) (r : Metrics) :
  collect_metrics w h = Ok r ->
  Counter.sum (by_hour r) = total r.
Proof.
  intros H.
  apply (collect_metrics_inv (fun m => Counter.sum (by_hour m) = total m)
           w h r); [reflexivity| |exact H].
  intros flags line t m m'. apply process_line_hours.
Qed.

Lemma hourly_counts_sum_to_total_witness :
  collect_metrics sample_world 1 = Ok sample_result /\
  Counter.sum (by_hour sample_result) = total sample_result.
Proof.
  split; [vm_compute; reflexivity|].
  apply (hourly_counts_sum_to_total sample_world 1 sample_result).
  vm_compute. reflexivity.
Defined.

(** C10.  A counted line of three to eight tokens is processed to the
    end and counted under the empty status code; the export passes the
    keys of the status counter on as they are, the empty one included. *)
Theorem short_line_counts_empty_status (flags : list string) (line : string)
  (m : Metrics) (t : datetime) :
  parse_line_time line = Ok (Some t) ->
  (3 <= List.length (split line) < 9)%nat ->
  (exists m',
      process_line flags line m = Ok m' /\
      by_status m' = Counter.incr EmptyString (by_status m) /\
      Counter.get EmptyString (by_status m')
      = S (Counter.get EmptyString (by_status m))) /\
  (forall w w24 window p hours data n,
      window_hours window = Ok hours ->
      collect_metrics w hours = Ok data ->
      export_metrics w w24 window = Ok p ->
      In (EmptyString, n) (Counter.items (by_status data)) ->
      In (EmptyString, n) (status_code_total p)).
Proof.
  intros Hp Hlen. split.
  - destruct (process_line_total_function flags line m t) as (m' & Hm');
      [lia | exact Hp |].
    exists m'. split; [exact Hm'|].
    apply process_line_ok in Hm'.
    destruct Hm' as (ip & user & status & ts & _ & _ & Hst & _ & _ & _ & _
                     & Hs & _).
    assert (E : (8 <? List.length (split line))%nat = false)
      by (apply Nat.ltb_ge; lia).
    rewrite E in Hst. inversion Hst; subst status.
    rewrite Hs. split; [reflexivity | apply get_incr].
  - intros w w24 window p hours data n Hh Hd He Hin.
    apply export_metrics_ok in He.
    destruct He as (hours' & data' & data24 & Hh' & Hd' & _ & ->).
    rewrite Hh in Hh'. inversion Hh'; subst hours'.
    rewrite Hd in Hd'. inversion Hd'; subst data'. exact Hin.
Qed.

Lemma short_line_counts_empty_status_witness :
  parse_line_time line_short = Ok (Some (clock - 1802)) /\
  List.length (split line_short) = 5%nat /\
  (exists m',
      process_line [] line_short fresh = Ok m' /\
      Counter.get EmptyString (by_status m') = 1%nat) /\
  exists p,
    export_metrics sample_world sample_world "1h" = Ok p /\
    In (EmptyString, 1%nat) (status_code_total p).
Proof.
  split; [vm_compute; reflexivity|]. split; [vm_compute; reflexivity|].
  destruct (short_line_counts_empty_status [] line_short fresh (clock - 1802))
    as ((m' & Hm' & _ & Hget) & Hexp).
  - vm_compute. reflexivity.
  - vm_compute. lia.
  - split.
    + exists m'. split; [exact Hm' | exact Hget].
    + destruct (export_metrics sample_world sample_world "1h") as [p|e] eqn:E;
        [|vm_compute in E; discriminate].
      exists p. split; [reflexivity|].
      apply (Hexp sample_world sample_world "1h" p 1 sample_result 1%nat);
        [vm_compute; reflexivity | vm_compute; reflexivity | exact E |].
      vm_compute. auto.
Defined.


(** * Further properties of the exporter and of the route *)

Import Notions Route.

(** ** Repository and service groups *)

Lemma prefix_append (p s : string) :
  String.prefix p s = true -> exists rest, s = p ++ rest.
Proof.
  revert s. induction p as [|a p IH]; intros s H.
  - now exists s.
  - destruct s as [|b s]; [discriminate|]. cbn in H.
    destruct (ascii_dec a b) as [->|]; [|discriminate].
    destruct (IH s H) as (rest & ->). now exists rest.
Qed.

Lemma split_on_nonempty (sep : ascii) (s : string) : split_on sep s <> [].
Proof.
  destruct s as [|c s]; cbn; [discriminate|].
  destruct (Ascii.eqb c sep); [discriminate|].
  destruct (split_on sep s); discriminate.
Qed.

Lemma contains_slash_cons (c : ascii) (s : string) :
  contains "/" (String c s) = Ascii.eqb c "/" || contains "/" s.
Proof.
  cbn [contains String.prefix].
  destruct (ascii_dec "/" c) as [<-|N].
  - destruct s; reflexivity.
  - assert (E : Ascii.eqb c "/" = false)
      by (apply Ascii.eqb_neq; congruence).
    now rewrite E.
Qed.

(** The first part of a text cut at the slashes has no slash. *)
Lemma first_segment_no_slash (s : string) :
  contains "/" (first_segment s) = false.
Proof.
  unfold first_segment. induction s as [|c s IH]; [reflexivity|].
  cbn [split_on]. destruct (Ascii.eqb c "/") eqn:E; [reflexivity|].
  destruct (split_on "/" s) as [|t ts] eqn:Es.
  - cbn [hd]. rewrite contains_slash_cons, E. reflexivity.
  - cbn [hd] in *. rewrite contains_slash_cons, E, IH. reflexivity.
Qed.

Lemma group_of_repository (rest : string) :
  group_of ("/repository/" ++ rest) = "/repository/" ++ first_segment rest.
Proof.
  unfold group_of, first_segment, slice, join. cbn [append split_on Ascii.eqb Bool.eqb].
  pose proof (split_on_nonempty "/" rest) as Hne.
  destruct (split_on "/" rest) as [|t ts]; [congruence|]. reflexivity.
Qed.

Lemma group_of_service (rest : string) :
  group_of ("/service/" ++ rest) = "/service/" ++ first_segment rest.
Proof.
  unfold group_of, first_segment, slice, join. cbn [append split_on Ascii.eqb Bool.eqb].
  pose proof (split_on_nonempty "/" rest) as Hne.
  destruct (split_on "/" rest) as [|t ts]; [congruence|]. reflexivity.
Qed.

Lemma repository_is_not_service (path : string) :
  startswith path "/repository/" = true -> startswith path "/service/" = false.
Proof.
  unfold startswith. intros H. apply prefix_append in H.
  destruct H as (rest & ->). reflexivity.
Qed.

(** The three counters of the request after a line: untouched, or the
    endpoint counted and the group its path belongs to. *)
Lemma process_line_request (flags : list string) (line : string)
  (m m' : Metrics) :
  process_line flags line m = Ok m' ->
  (by_endpoint m' = by_endpoint m /\ by_repo m' = by_repo m /\
   by_service m' = by_service m) \/
  exists path,
    by_endpoint m' = Counter.incr path (by_endpoint m) /\
    by_repo m' =
      (if startswith path "/repository/"
       then Counter.incr (group_of path) (by_repo m) else by_repo m) /\
    by_service m' =
      (if startswith path "/service/"
       then Counter.incr (group_of path) (by_service m) else by_service m).
Proof.
  unfold process_line. intros H.
  apply bind_ok in H. destruct H as (ip & _ & H).
  apply bind_ok in H. destruct H as (user & _ & H).
  apply bind_ok in H. destruct H as (status & _ & H).
  destruct (count_request line (by_endpoint m) (by_repo m) (by_service m))
    as [[[ce cr] cs]|x] eqn:Hreq.
  - apply bind_ok in H. destruct H as (ts & _ & H).
    inversion H; subst m'; clear H. cbn. right.
    unfold count_request in Hreq.
    apply bind_ok in Hreq. destruct Hreq as (req & _ & Hreq).
    apply bind_ok in Hreq. destruct Hreq as ([[meth path] proto] & _ & Hreq).
    inversion Hreq; subst. exists path. auto.
  - apply bind_ok in H. destruct H as (ts & _ & H).
    inversion H; subst m'; clear H. cbn. now left.
Qed.

(** X1.  In every result the counts by repository and by service together
    do not exceed the counts by endpoint: a request is counted in one
    group at most. *)
Theorem groups_share_the_endpoints (w : World) (h : Z) (r : Metrics) :
  collect_metrics w h = Ok r ->
  (Counter.sum (by_repo r) + Counter.sum (by_service r)
   <= Counter.sum (by_endpoint r))%nat.
Proof.
  apply (collect_metrics_inv
           (fun m => (Counter.sum (by_repo m) + Counter.sum (by_service m)
                      <= Counter.sum (by_endpoint m))%nat)).
  - cbn. lia.
  - intros flags line t m m' _ Hm H. apply process_line_request in H.
    destruct H as [(-> & -> & ->)|(path & -> & -> & ->)]; [exact Hm|].
    rewrite sum_incr.
    destruct (startswith path "/repository/") eqn:E.
    + rewrite (repository_is_not_service path E), sum_incr. lia.
    + destruct (startswith path "/service/"); rewrite ?sum_incr; lia.
Qed.

Lemma groups_share_the_endpoints_witness :
  collect_metrics sample_world 1 = Ok sample_result /\
  (Counter.sum (by_repo sample_result) + Counter.sum (by_service sample_result)
   <= Counter.sum (by_endpoint sample_result))%nat.
Proof.
  split; [vm_compute; reflexivity|].
  apply (groups_share_the_endpoints sample_world 1 sample_result).
  vm_compute. reflexivity.
Defined.

Lemma group_key_repository (path : string) :
  startswith path "/repository/" = true ->
  group_key "/repository/" (group_of path).
Proof.
  intros H. apply prefix_append in H. destruct H as (rest & ->).
  exists (first_segment rest). split.
  - apply group_of_repository.
  - apply first_segment_no_slash.
Qed.

Lemma group_key_service (path : string) :
  startswith path "/service/" = true ->
  group_key "/service/" (group_of path).
Proof.
  intros H. apply prefix_append in H. destruct H as (rest & ->).
  exists (first_segment rest). split.
  - apply group_of_service.
  - apply first_segment_no_slash.
Qed.

(** X2.  Every key of the counter by repository is [/repository/]
    followed by one path segment, every key of the counter by service is
    [/service/] followed by one path segment, and no key is in both. *)
Theorem group_keys_have_two_segments (w : World) (h : Z) (r : Metrics) :
  collect_metrics w h = Ok r ->
  (forall k, In k (keys (by_repo r)) -> group_key "/repository/" k) /\
  (forall k, In k (keys (by_service r)) -> group_key "/service/" k) /\
  (forall k, In k (keys (by_repo r)) -> ~ In k (keys (by_service r))).
Proof.
  intros H.
  assert (Hinv : (forall k, In k (keys (by_repo r)) ->
                            group_key "/repository/" k) /\
                 (forall k, In k (keys (by_service r)) ->
                            group_key "/service/" k)).
  { revert H.
    apply (collect_metrics_inv
             (fun m => (forall k, In k (keys (by_repo m)) ->
                                  group_key "/repository/" k) /\
                       (forall k, In k (keys (by_service m)) ->
                                  group_key "/service/" k))).
    - cbn. split; intros k [].
    - intros flags line t m m' _ (Hr & Hs) H. apply process_line_request in H.
      destruct H as [(_ & -> & ->)|(path & _ & -> & ->)]; [now split|].
      split; intros k Hk.
      + destruct (startswith path "/repository/") eqn:E; [|now apply Hr].
        apply incr_keys_In in Hk. destruct Hk as [->|Hk]; [|now apply Hr].
        now apply group_key_repository.
      + destruct (startswith path "/service/") eqn:E; [|now apply Hs].
        apply incr_keys_In in Hk. destruct Hk as [->|Hk]; [|now apply Hs].
        now apply group_key_service. }
  destruct Hinv as (Hr & Hs). split; [exact Hr|]. split; [exact Hs|].
  intros k Hk Hk'. apply Hr in Hk. apply Hs in Hk'.
  destruct Hk as (seg & -> & _). destruct Hk' as (seg' & E & _).
  discriminate E.
Qed.

Lemma group_keys_have_two_segments_witness :
  collect_metrics sample_world 1 = Ok sample_result /\
  group_key "/repository/" "/repository/maven-releases" /\
  group_key "/service/" "/service/rest".
Proof.
  split; [vm_compute; reflexivity|].
  destruct (group_keys_have_two_segments sample_world 1 sample_result)
    as (Hr & Hs & _); [vm_compute; reflexivity|].
  split; [apply Hr | apply Hs]; vm_compute; auto.
Defined.

(** ** Reading the timestamp *)

Lemma int_all_digits (ds : string) :
  all_digits ds = true -> ds <> EmptyString ->
  (String.length ds <= int_max_str_digits)%nat ->
  int ds = Ok (number ds).
Proof.
  intros Hd Hne Hlen. destruct ds as [|c r]; [congruence|].
  pose proof Hd as Hd'.
  cbn [all_digits] in Hd. apply andb_prop in Hd. destruct Hd as (Hc & Hr).
  rewrite (int_of_digit_head c r Hc).
  rewrite rstrip_by_digits;
    [| intros a Ha; apply (digit_is_plain a Ha) | exact Hd'].
  unfold unsigned. cbn [digits]. rewrite Hc, (digits_all_digits r _ _ Hr).
  cbn [String.length] in Hlen. apply Nat.leb_le in Hlen.
  cbn [Nat.add]. rewrite Hlen. reflexivity.
Qed.

Lemma take_class_digits (n : nat) (s g rest : string) :
  take_class is_digit n s = Some (g, rest) ->
  all_digits g = true /\ String.length g = n /\ s = g ++ rest.
Proof.
  revert s g rest. induction n as [|n IH]; cbn [take_class]; intros s g rest H.
  - inversion H; subst. auto.
  - destruct s as [|c s]; [discriminate|].
    destruct (is_digit c) eqn:Hc; [|discriminate].
    destruct (take_class is_digit n s) as [[g' rest']|] eqn:E; [|discriminate].
    inversion H; subst. destruct (IH _ _ _ E) as (Hg & Hl & ->).
    cbn. rewrite Hc, Hg, Hl. auto.
Qed.

Lemma int_of_group (n : nat) (s g rest : string) :
  take_class is_digit (S n) s = Some (g, rest) ->
  (S n <= int_max_str_digits)%nat ->
  int g = Ok (number g).
Proof.
  intros H Hn. apply take_class_digits in H. destruct H as (Hg & Hl & _).
  apply int_all_digits; [exact Hg | | lia].
  intros ->. discriminate Hl.
Qed.

Lemma obind_some {A B : Type} (m : option A) (k : A -> option B) (b : B) :
  obind m k = Some b -> exists a, m = Some a /\ k a = Some b.
Proof.
  destruct m as [a|]; cbn; intros H; [eauto | discriminate].
Qed.

(** The groups of a match are groups of digits of the lengths of the
    pattern. *)
Lemma LOG_PATTERN_match_groups (s day mon year hh mm ss : string) :
  LOG_PATTERN_match s = Some (day, mon, year, hh, mm, ss) ->
  int day = Ok (number day) /\ int year = Ok (number year) /\
  int hh = Ok (number hh) /\ int mm = Ok (number mm) /\
  int ss = Ok (number ss).
Proof.
  unfold LOG_PATTERN_match. intros H.
  apply obind_some in H. destruct H as (s1 & _ & H).
  apply obind_some in H. destruct H as ([day' s2] & Hday & H).
  apply obind_some in H. destruct H as (s3 & _ & H).
  apply obind_some in H. destruct H as ([mon' s4] & _ & H).
  apply obind_some in H. destruct H as (s5 & _ & H).
  apply obind_some in H. destruct H as ([year' s6] & Hyear & H).
  apply obind_some in H. destruct H as (s7 & _ & H).
  apply obind_some in H. destruct H as ([hh' s8] & Hhh & H).
  apply obind_some in H. destruct H as (s9 & _ & H).
  apply obind_some in H. destruct H as ([mm' s10] & Hmm & H).
  apply obind_some in H. destruct H as (s11 & _ & H).
  apply obind_some in H. destruct H as ([ss' s12] & Hss & H).
  inversion H; subst.
  repeat split; eapply int_of_group; try eassumption;
    unfold int_max_str_digits; lia.
Qed.

Lemma LOG_PATTERN_search_match (line : string)
  (g : string * string * string * string * string * string) :
  LOG_PATTERN_search line = Some g ->
  exists pre suf, line = pre ++ suf /\ LOG_PATTERN_match suf = Some g.
Proof.
  induction line as [|c line IH]; cbn [LOG_PATTERN_search]; intros H.
  - destruct (LOG_PATTERN_match "") eqn:E; [|discriminate].
    inversion H; subst. now exists "", "".
  - destruct (LOG_PATTERN_match (String c line)) eqn:E.
    + inversion H; subst. now exists "", (String c line).
    + destruct (IH H) as (pre & suf & -> & Hm).
      now exists (String c pre), suf.
Qed.

(** What the extractor returns on a match: the conversions of the digits
    never fail, the month is looked up and the date is built. *)
Lemma parse_line_time_on_match (line day mon year hh mm ss : string) :
  LOG_PATTERN_search line = Some (day, mon, year, hh, mm, ss) ->
  parse_line_time line =
  (m <- MONTHS mon ;;
   ts <- make (number year) m (number day) (number hh) (number mm) (number ss) ;;
   Ok (Some ts)).
Proof.
  intros H. unfold parse_line_time. rewrite H.
  apply LOG_PATTERN_search_match in H. destruct H as (pre & suf & _ & H).
  apply LOG_PATTERN_match_groups in H.
  destruct H as (-> & -> & -> & -> & ->). cbn [bind].
  destruct (MONTHS mon); reflexivity.
Qed.

(** X3.  The extractor fails in two ways only, both on a fragment of the
    right shape: [KeyError] for a month outside the table, [ValueError]
    for a date or a time of day that does not exist. *)
Theorem timestamp_errors (line : string) (e : exn) :
  parse_line_time line = Raise e ->
  exists day mon year hh mm ss,
    LOG_PATTERN_search line = Some (day, mon, year, hh, mm, ss) /\
    ((e = KeyError /\ MONTHS mon = Raise KeyError) \/
     (e = ValueError /\
      exists m, MONTHS mon = Ok m /\
                make (number year) m (number day) (number hh) (number mm)
                  (number ss) = Raise ValueError)).
Proof.
  intros H.
  destruct (LOG_PATTERN_search line)
    as [[[[[[day mon] year] hh] mm] ss]|] eqn:E.
  - exists day, mon, year, hh, mm, ss. split; [reflexivity|].
    rewrite (parse_line_time_on_match _ _ _ _ _ _ _ E) in H.
    destruct (MONTHS mon) as [m|e'] eqn:Em; cbn [bind] in H.
    + right.
      destruct (make (number year) m (number day) (number hh) (number mm)
                  (number ss)) as [t|e'] eqn:Ek; cbn [bind] in H;
        [discriminate|].
      inversion H; subst e'.
      assert (e = ValueError).
      { unfold make in Ek. destruct (_ && _); [discriminate|].
        now inversion Ek. }
      subst e. split; [reflexivity|]. now exists m.
    + left. inversion H; subst e'.
      assert (e = KeyError).
      { unfold MONTHS in Em.
        repeat (destruct (String.eqb mon _); [discriminate|]).
        now inversion Em. }
      subst e. auto.
  - rewrite (parse_line_time_no_match line E) in H. discriminate.
Qed.


Lemma timestamp_errors_witness :
  parse_line_time line_bad_day = Raise ValueError /\
  exists day mon year hh mm ss,
    LOG_PATTERN_search line_bad_day = Some (day, mon, year, hh, mm, ss) /\
    ((ValueError = KeyError /\ MONTHS mon = Raise KeyError) \/
     (ValueError = ValueError /\
      exists m, MONTHS mon = Ok m /\
                make (number year) m (number day) (number hh) (number mm)
                  (number ss) = Raise ValueError)).
Proof.
  split; [vm_compute; reflexivity|].
  apply (timestamp_errors line_bad_day ValueError).
  vm_compute. reflexivity.
Defined.

Lemma parse_line_time_hour (line : string) (t : datetime) :
  parse_line_time line = Ok (Some t) -> 0 <= hour t <= 23.
Proof.
  intros H.
  destruct (LOG_PATTERN_search line)
    as [[[[[[day mon] year] hh] mm] ss]|] eqn:E.
  - rewrite (parse_line_time_on_match _ _ _ _ _ _ _ E) in H.
    apply bind_ok in H. destruct H as (m & _ & H).
    apply bind_ok in H. destruct H as (ts & Hmk & H).
    inversion H; subst ts.
    destruct (make_date_hour _ _ _ _ _ _ _ Hmk) as (_ & ->).
    apply make_ok in Hmk. lia.
  - rewrite (parse_line_time_no_match line E) in H. discriminate.
Qed.

Lemma hour_label_In (h : Z) :
  0 <= h <= 23 -> In (zero_pad 2 h) hour_labels.
Proof.
  intros Hh. unfold hour_labels. apply in_map_iff.
  exists (Z.to_nat h). split.
  - f_equal. lia.
  - apply in_seq. lia.
Qed.

(** X4.  The counter by hour has the two-digit hours [00] to [23] for
    keys, hence twenty-four entries at most. *)
Theorem hours_of_the_day (w : World) (h : Z) (r : Metrics) :
  collect_metrics w h = Ok r ->
  incl (keys (by_hour r)) hour_labels /\
  (List.length (Counter.items (by_hour r)) <= 24)%nat.
Proof.
  intros H.
  assert (Hincl : incl (keys (by_hour r)) hour_labels).
  { revert H.
    apply (collect_metrics_inv (fun m => incl (keys (by_hour m)) hour_labels)).
    - intros k [].
    - intros flags line t m m' Hp Hm H. apply process_line_ok in H.
      destruct H as (ip & user & status & ts & _ & _ & _ & Hts & _ & _ & _
                     & _ & Hh & _).
      rewrite Hp in Hts. inversion Hts; subst ts. rewrite Hh.
      intros k Hk. apply incr_keys_In in Hk. destruct Hk as [->|Hk].
      + apply hour_label_In. now apply (parse_line_time_hour line).
      + now apply Hm. }
  split; [exact Hincl|].
  destruct (collect_metrics_keys w h r H) as (_ & _ & _ & _ & _ & Hnd & _).
  apply (NoDup_incl_length Hnd) in Hincl. unfold keys in Hincl.
  rewrite length_map in Hincl. exact Hincl.
Qed.

Lemma hours_of_the_day_witness :
  collect_metrics sample_world 1 = Ok sample_result /\
  incl (keys (by_hour sample_result)) hour_labels /\
  (List.length (Counter.items (by_hour sample_result)) <= 24)%nat.
Proof.
  split; [vm_compute; reflexivity|].
  apply (hours_of_the_day sample_world 1 sample_result).
  vm_compute. reflexivity.
Defined.

(** ** Writing and reading a timestamp *)

Lemma pad_reads_back_upto (w : nat) (bound : Z) (n : Z) :
  forallb (fun k => pad_reads_back w (Z.of_nat k)) (seq 0 (Z.to_nat bound))
  = true ->
  0 <= n < bound ->
  all_digits (zero_pad w n) = true /\
  String.length (zero_pad w n) = w /\
  number (zero_pad w n) = n.
Proof.
  intros Hall Hn. rewrite forallb_forall in Hall.
  specialize (Hall (Z.to_nat n)). rewrite Z2Nat.id in Hall by lia.
  assert (Hin : In (Z.to_nat n) (seq 0 (Z.to_nat bound)))
    by (apply in_seq; lia).
  apply Hall in Hin. unfold pad_reads_back in Hin.
  apply andb_prop in Hin. destruct Hin as (Hin & Hv).
  apply andb_prop in Hin. destruct Hin as (Hd & Hl).
  apply Nat.eqb_eq in Hl. apply Z.eqb_eq in Hv. auto.
Qed.

Lemma pad2_reads_back (n : Z) :
  0 <= n <= 99 ->
  all_digits (zero_pad 2 n) = true /\
  String.length (zero_pad 2 n) = 2%nat /\
  number (zero_pad 2 n) = n.
Proof.
  intros Hn. apply (pad_reads_back_upto 2 100); [vm_compute; reflexivity | lia].
Qed.

Lemma pad4_reads_back (n : Z) :
  0 <= n <= 9999 ->
  all_digits (zero_pad 4 n) = true /\
  String.length (zero_pad 4 n) = 4%nat /\
  number (zero_pad 4 n) = n.
Proof.
  intros Hn. apply (pad_reads_back_upto 4 10000); [vm_compute; reflexivity | lia].
Qed.

Lemma take_class_app (g rest : string) :
  all_digits g = true ->
  take_class is_digit (String.length g) (g ++ rest) = Some (g, rest).
Proof.
  induction g as [|c g IH]; cbn [all_digits String.length take_class append];
    [reflexivity|].
  intros H. apply andb_prop in H. destruct H as (Hc & Hg).
  now rewrite Hc, (IH Hg).
Qed.

Lemma take_pad (w : nat) (n : Z) (rest : string) :
  all_digits (zero_pad w n) = true /\
  String.length (zero_pad w n) = w /\
  number (zero_pad w n) = n ->
  take_class is_digit w (zero_pad w n ++ rest) = Some (zero_pad w n, rest).
Proof.
  intros (Hd & Hl & _). rewrite <- Hl at 1. now apply take_class_app.
Qed.

Lemma month_name_reads_back (m : Z) (rest : string) :
  1 <= m <= 12 ->
  take_class is_word 3 (month_name m ++ rest) = Some (month_name m, rest) /\
  MONTHS (month_name m) = Ok m.
Proof.
  intros Hm. by_month m Hm; split; reflexivity.
Qed.

Lemma LOG_PATTERN_match_stamp (y m d hh mm ss : Z) (rest : string) :
  1 <= y <= 9999 -> 1 <= m <= 12 -> 0 <= d <= 99 ->
  0 <= hh <= 99 -> 0 <= mm <= 99 -> 0 <= ss <= 99 ->
  LOG_PATTERN_match (stamp y m d hh mm ss rest)
  = Some (zero_pad 2 d, month_name m, zero_pad 4 y,
          zero_pad 2 hh, zero_pad 2 mm, zero_pad 2 ss).
Proof.
  intros Hy Hm Hd Hhh Hmm Hss. unfold LOG_PATTERN_match, stamp.
  cbn [append expect Ascii.eqb Bool.eqb obind].
  rewrite (take_pad 2 d) by (apply pad2_reads_back; lia).
  cbn [append expect Ascii.eqb Bool.eqb obind].
  rewrite (proj1 (month_name_reads_back m _ Hm)).
  cbn [append expect Ascii.eqb Bool.eqb obind].
  rewrite (take_pad 4 y) by (apply pad4_reads_back; lia).
  cbn [append expect Ascii.eqb Bool.eqb obind].
  rewrite (take_pad 2 hh) by (apply pad2_reads_back; lia).
  cbn [append expect Ascii.eqb Bool.eqb obind].
  rewrite (take_pad 2 mm) by (apply pad2_reads_back; lia).
  cbn [append expect Ascii.eqb Bool.eqb obind].
  rewrite (take_pad 2 ss) by (apply pad2_reads_back; lia).
  reflexivity.
Qed.

Lemma contains_bracket_cons (c : ascii) (s : string) :
  contains "[" (String c s) = Ascii.eqb c "[" || contains "[" s.
Proof.
  cbn [contains String.prefix].
  destruct (ascii_dec "[" c) as [<-|N].
  - destruct s; reflexivity.
  - assert (E : Ascii.eqb c "[" = false)
      by (apply Ascii.eqb_neq; congruence).
    now rewrite E.
Qed.

Lemma LOG_PATTERN_search_skips (pre s : string) :
  contains "[" pre = false ->
  LOG_PATTERN_search (pre ++ s) = LOG_PATTERN_search s.
Proof.
  intros Hpre. induction pre as [|c pre IH]; [reflexivity|].
  rewrite contains_bracket_cons in Hpre. apply orb_false_elim in Hpre.
  destruct Hpre as (Hc & Hpre).
  cbn [append LOG_PATTERN_search].
  unfold LOG_PATTERN_match at 1. cbn [expect]. rewrite Hc. cbn [obind].
  now apply IH.
Qed.

Lemma LOG_PATTERN_search_here (s : string)
  (g : string * string * string * string * string * string) :
  LOG_PATTERN_match s = Some g -> LOG_PATTERN_search s = Some g.
Proof.
  intros H. destruct s; cbn [LOG_PATTERN_search]; now rewrite H.
Qed.

(** X5.  A line that carries, after a text without opening bracket, the
    fragment written for an existing date and time of day, is read as
    that date and time. *)
Theorem written_timestamp_is_read_back (y m d hh mm ss : Z) (t : datetime)
  (pre rest : string) :
  make y m d hh mm ss = Ok t ->
  contains "[" pre = false ->
  parse_line_time (pre ++ stamp y m d hh mm ss rest) = Ok (Some t).
Proof.
  intros Hmk Hpre. pose proof (make_ok _ _ _ _ _ _ _ Hmk) as Hb.
  destruct Hb as (Hy & Hm & Hd & Hhh & Hmm & Hss & _).
  assert (Hd' : 0 <= d <= 99).
  { by_month m Hm; unfold days_in_month in Hd; cbn in Hd;
      destruct (is_leap y); lia. }
  assert (Hsearch : LOG_PATTERN_search (pre ++ stamp y m d hh mm ss rest)
                    = Some (zero_pad 2 d, month_name m, zero_pad 4 y,
                            zero_pad 2 hh, zero_pad 2 mm, zero_pad 2 ss)).
  { rewrite LOG_PATTERN_search_skips by exact Hpre.
    apply LOG_PATTERN_search_here, LOG_PATTERN_match_stamp; lia. }
  rewrite (parse_line_time_on_match _ _ _ _ _ _ _ Hsearch).
  rewrite (proj2 (month_name_reads_back m "" Hm)). cbn [bind].
  destruct (pad2_reads_back d Hd') as (_ & _ & ->).
  destruct (pad4_reads_back y ltac:(lia)) as (_ & _ & ->).
  destruct (pad2_reads_back hh ltac:(lia)) as (_ & _ & ->).
  destruct (pad2_reads_back mm ltac:(lia)) as (_ & _ & ->).
  destruct (pad2_reads_back ss ltac:(lia)) as (_ & _ & ->).
  rewrite Hmk. reflexivity.
Qed.

Lemma written_timestamp_is_read_back_witness :
  make 2024 1 1 23 30 0 = Ok (clock - 3600) /\
  contains "[" "10.0.0.3 - carol " = false /\
  parse_line_time ("10.0.0.3 - carol " ++ stamp 2024 1 1 23 30 0 " +0000]")
  = Ok (Some (clock - 3600)).
Proof.
  split; [vm_compute; reflexivity|]. split; [vm_compute; reflexivity|].
  apply (written_timestamp_is_read_back 2024 1 1 23 30 0 (clock - 3600));
    vm_compute; reflexivity.
Defined.

(** ** What is scanned *)

(** X6.  The total of a result is the number of lines within the window
    of the live file and of the two archives of every date from the day
    of the cutoff to the day of the clock, each date taken once; the day
    of the clock is among them when the window is not negative. *)
Theorem total_of_the_scanned_files (w : World) (h : Z) (r : Metrics) :
  collect_metrics w h = Ok r ->
  let cutoff := now w - 3600 * h in
  exists dates,
    NoDup dates /\
    (forall x, In x dates <->
               exists day, date cutoff <= day <= date (now w) /\
                           x = strftime_ymd day) /\
    (0 <= h -> In (strftime_ymd (date (now w))) dates) /\
    total r = (list_sum (map (day_count w cutoff) dates)
               + file_count w cutoff "request.log")%nat.
Proof.
  intros H cutoff. apply collect_metrics_total in H.
  destruct H as (c & ds & Hc & Hd & Ht).
  apply sub_hours_ok in Hc. fold cutoff in Hc. subst c.
  apply date_loop_spec in Hd. destruct Hd as (Hnd & Hin).
  assert (Hdates : forall x, In x (sorted ds) <->
                     exists day, date cutoff <= day <= date (now w) /\
                                 x = strftime_ymd day).
  { intros x. split.
    - intros Hx. apply (Permutation_in _ (sorted_perm ds)) in Hx.
      apply Hin in Hx. destruct Hx as [[]|(k & Hk & ->)].
      exists (date cutoff + Z.of_nat k). split; [lia | reflexivity].
    - intros (day & Hday & ->).
      apply (Permutation_in _ (Permutation_sym (sorted_perm ds))).
      apply Hin. right. exists (Z.to_nat (day - date cutoff)).
      split; [lia|]. f_equal. lia. }
  exists (sorted ds). split; [|split; [exact Hdates|split; [|exact Ht]]].
  - apply (Permutation_NoDup (Permutation_sym (sorted_perm ds))).
    apply Hnd. constructor.
  - intros Hh. apply Hdates. exists (date (now w)). split; [|reflexivity].
    split; [|lia]. unfold date, cutoff. apply Z.div_le_mono; lia.
Qed.

Lemma total_of_the_scanned_files_witness :
  collect_metrics sample_world 1 = Ok sample_result /\
  exists dates,
    In "2024-01-01" dates /\ In "2024-01-02" dates /\
    total sample_result
    = (list_sum (map (day_count sample_world (clock - 3600 * 1)%Z) dates)
       + file_count sample_world (clock - 3600 * 1)%Z "request.log")%nat.
Proof.
  split; [vm_compute; reflexivity|].
  destruct (total_of_the_scanned_files sample_world 1 sample_result)
    as (dates & _ & Hin & _ & Ht); [vm_compute; reflexivity|].
  exists dates. split; [|split; [|exact Ht]]; apply Hin.
  - exists 738886. split; [vm_compute; split; discriminate | reflexivity].
  - exists 738887. split; [vm_compute; split; discriminate | reflexivity].
Defined.

(** ** When the aggregation returns *)

Lemma iter_log_file_passable (flags : list string) (cutoff : datetime)
  (lines : list string) (m : Metrics) :
  (forall line, In line lines -> passable cutoff line) ->
  exists m', iter_log_file lines cutoff (process_line flags) m = Ok m'.
Proof.
  revert m. induction lines as [|line lines IH]; intros m Hall.
  - now exists m.
  - cbn [iter_log_file].
    pose proof (Hall line (or_introl eq_refl)) as Hl. unfold passable in Hl.
    assert (Hrest : forall l, In l lines -> passable cutoff l)
      by (intros l Hin; apply Hall; now right).
    destruct (parse_line_time line) as [[t|]|e] eqn:Hp; [| |contradiction];
      cbn [bind]; [|now apply IH].
    unfold geb. destruct (cutoff <=? t) eqn:E; cbn [bind]; [|now apply IH].
    apply Z.leb_le in E. destruct Hl as [Hl|Hl]; [lia|].
    destruct (process_line_total_function flags line m t Hl Hp) as (m1 & ->).
    cbn [bind]. now apply IH.
Qed.

Lemma date_loop_returns (n : nat) (day : Z) (acc : list string) :
  day + Z.of_nat n <= MAXORDINAL ->
  exists ds, date_loop n day acc = Ok ds.
Proof.
  revert day acc. induction n as [|n IH]; intros day acc Hmax.
  - now exists acc.
  - cbn [date_loop]. unfold next_day.
    destruct (MAXORDINAL <? day + 1) eqn:E; [apply Z.ltb_lt in E; lia|].
    cbn [bind]. apply IH. lia.
Qed.

(** On lines that are all read, the aggregation returns whenever the
    cutoff is in the range of the calendar, the clock is not on its last
    day and every line of every file is passable. *)
Lemma collect_metrics_returns (w : World) (h : Z) (cutoff : datetime) :
  sub_hours (now w) h = Ok cutoff ->
  date (now w) < MAXORDINAL ->
  (forall name lines line,
      log_dir w name = Some lines -> In line lines -> passable cutoff line) ->
  exists r, collect_metrics w h = Ok r.
Proof.
  intros Hc Hmax Hlines. unfold collect_metrics. rewrite Hc. cbn [bind].
  destruct (date_loop_returns
              (Z.to_nat (date (now w) + 1 - date cutoff)) (date cutoff) [])
    as (ds & ->).
  { pose proof (sub_hours_ok _ _ _ Hc). unfold sub_hours in Hc.
    destruct (999999999 <? _); [discriminate|].
    destruct (_ || _) eqn:E; [discriminate|].
    apply orb_false_elim in E. destruct E as (_ & E).
    apply Z.ltb_ge in E. subst cutoff. lia. }
  cbn [bind].
  assert (Hscan : forall name m,
             exists m', scan_file w (load_flags w) cutoff name m = Ok m').
  { intros name m. unfold scan_file.
    destruct (log_dir w name) as [lines|] eqn:E; [|now exists m].
    apply iter_log_file_passable. intros line. now apply (Hlines name). }
  assert (Harch : forall dates m,
             exists m',
               for_each
                 (fun d m =>
                    for_each
                      (fun suffix m =>
                         scan_file w (load_flags w) cutoff
                           ("request-" ++ d ++ suffix) m)
                      [".log.gz"; ".log"] m)
                 dates m = Ok m').
  { induction dates as [|d dates IH]; intros m; [now exists m|].
    cbn [for_each].
    destruct (Hscan ("request-" ++ d ++ ".log.gz") m) as (m1 & ->).
    cbn [bind].
    destruct (Hscan ("request-" ++ d ++ ".log") m1) as (m2 & ->).
    cbn [bind]. apply IH. }
  destruct (Harch (sorted ds) fresh) as (m & ->). cbn [bind]. apply Hscan.
Qed.

(** ** Ties *)

Lemma insert_desc_of_count (k : nat) (x : string * nat)
  (l : list (string * nat)) :
  of_count k (Counter.insert_desc x l) = of_count k (x :: l).
Proof.
  unfold of_count. induction l as [|y l IH]; [reflexivity|].
  cbn [Counter.insert_desc]. destruct (snd x <? snd y)%nat eqn:E; [|reflexivity].
  apply Nat.ltb_lt in E. cbn [filter] in *. rewrite IH.
  destruct (snd x =? k)%nat eqn:Ex; [|reflexivity].
  apply Nat.eqb_eq in Ex.
  assert (Ey : (snd y =? k)%nat = false) by (apply Nat.eqb_neq; lia).
  now rewrite Ey.
Qed.

(** The sort keeps the entries of one count in their order. *)
Lemma sort_desc_of_count (k : nat) (l : list (string * nat)) :
  of_count k (Counter.sort_desc l) = of_count k l.
Proof.
  induction l as [|x l IH]; [reflexivity|].
  cbn [Counter.sort_desc fold_right]. rewrite insert_desc_of_count.
  unfold of_count in *. cbn [filter]. fold (Counter.sort_desc l).
  now rewrite IH.
Qed.

Lemma filter_firstn {A : Type} (f : A -> bool) (n : nat) (l : list A) :
  exists j, filter f (firstn n l) = firstn j (filter f l).
Proof.
  revert n. induction l as [|x l IH]; intros n.
  - exists 0%nat. now rewrite firstn_nil.
  - destruct n as [|n]; [now exists 0%nat|].
    cbn [firstn filter]. destruct (IH n) as (j & ->).
    destruct (f x); [now exists (S j) | now exists j].
Qed.

(** X9.  Among the endpoints of one count, those exposed are the first
    ones counted: a tie at the fiftieth place is broken by the order in
    which the paths were first seen. *)
Theorem ties_go_to_the_first_seen (w w24 : World) (window : string)
  (p : Payload) (hours : Z) (data : Metrics) (k : nat) :
  export_metrics w w24 window = Ok p ->
  window_hours window = Ok hours ->
  collect_metrics w hours = Ok data ->
  exists j,
    of_count k (requests_by_endpoint p)
    = firstn j (of_count k (Counter.items (by_endpoint data))).
Proof.
  intros He Hh Hd. apply export_metrics_ok in He.
  destruct He as (hours' & data' & data24 & Hh' & Hd' & _ & ->).
  rewrite Hh in Hh'. inversion Hh'; subst hours'.
  rewrite Hd in Hd'. inversion Hd'; subst data'.
  cbn [requests_by_endpoint]. unfold Counter.most_common, Counter.items.
  destruct (filter_firstn (fun e => (snd e =? k)%nat) 50
              (Counter.sort_desc (by_endpoint data))) as (j & Hj).
  exists j. unfold of_count at 1. rewrite Hj.
  fold (of_count k (Counter.sort_desc (by_endpoint data))).
  now rewrite sort_desc_of_count.
Qed.

(** ** Windows *)

Lemma rstrip_by_last (p : ascii -> bool) (s : string) (c : ascii) :
  p c = true ->
  rstrip_by p (s ++ String c EmptyString) = rstrip_by p s.
Proof.
  intros Hc. induction s as [|a s IH]; cbn [append rstrip_by].
  - now rewrite Hc.
  - now rewrite IH.
Qed.

(** X10.  One more [h] at the end of the window changes nothing: all the
    trailing [h] are dropped before the number is read. *)
Theorem trailing_h_is_dropped (window : string) :
  window_hours (window ++ "h") = window_hours window.
Proof.
  unfold window_hours, rstrip. now rewrite rstrip_by_last.
Qed.

(** A longer window, or the same, never gives a smaller total. *)
Lemma collect_metrics_total_mono (w : World) (h1 h2 : Z) (r1 r2 : Metrics) :
  h1 <= h2 ->
  collect_metrics w h1 = Ok r1 ->
  collect_metrics w h2 = Ok r2 ->
  (total r1 <= total r2)%nat.
Proof.
  intros Hle H1 H2.
  apply collect_metrics_total in H1, H2.
  destruct H1 as (c1 & ds1 & Hc1 & Hd1 & ->).
  destruct H2 as (c2 & ds2 & Hc2 & Hd2 & ->).
  apply sub_hours_ok in Hc1, Hc2.
  assert (Hc : c2 <= c1) by lia.
  assert (Hday : date c2 <= date c1)
    by (unfold date; apply Z.div_le_mono; lia).
  apply date_loop_spec in Hd1, Hd2.
  destruct Hd1 as (Hnd1 & Hin1). destruct Hd2 as (_ & Hin2).
  pose proof (file_count_widen w c1 c2 "request.log" Hc) as Hlive.
  assert (Harch : (list_sum (map (day_count w c1) (sorted ds1))
                   <= list_sum (map (day_count w c2) (sorted ds2)))%nat).
  { apply list_sum_incl.
    - apply (Permutation_NoDup (Permutation_sym (sorted_perm ds1))).
      apply Hnd1. constructor.
    - intros x Hx.
      apply (Permutation_in _ (sorted_perm ds1)) in Hx.
      apply (Permutation_in _ (Permutation_sym (sorted_perm ds2))).
      apply Hin1 in Hx. destruct Hx as [[]|(k & Hk & ->)].
      apply Hin2. right.
      exists (k + Z.to_nat (date c1 - date c2))%nat. split; [lia|].
      f_equal. lia.
    - intros d. now apply day_count_widen. }
  lia.
Qed.

(** X11.  When both aggregations of an export read the same world, the
    total of a window of 24 hours or less is at most the 24-hour figure,
    and the total of a window of 24 hours or more is at least that
    figure. *)
Theorem total_against_the_baseline (w : World) (window : string)
  (hours : Z) (p : Payload) :
  window_hours window = Ok hours ->
  export_metrics w w window = Ok p ->
  (hours <= 24 -> (requests_total p <= requests_total_last_24h p)%nat) /\
  (24 <= hours -> (requests_total_last_24h p <= requests_total p)%nat).
Proof.
  intros Hh He. apply export_metrics_ok in He.
  destruct He as (hours' & data & data24 & Hh' & Hd & Hd24 & ->).
  rewrite Hh in Hh'. inversion Hh'; subst hours'.
  cbn [requests_total requests_total_last_24h]. split; intros Hle.
  - exact (collect_metrics_total_mono w hours 24 data data24 Hle Hd Hd24).
  - exact (collect_metrics_total_mono w 24 hours data24 data Hle Hd24 Hd).
Qed.

Lemma total_against_the_baseline_witness :
  window_hours "1h" = Ok 1 /\
  exists p,
    export_metrics sample_world sample_world "1h" = Ok p /\
    (requests_total p <= requests_total_last_24h p)%nat.
Proof.
  split; [vm_compute; reflexivity|].
  destruct (export_metrics sample_world sample_world "1h") as [p|e] eqn:E;
    [|vm_compute in E; discriminate].
  exists p. split; [reflexivity|].
  apply (total_against_the_baseline sample_world "1h" 1 p);
    [vm_compute; reflexivity | exact E | lia].
Defined.

Lemma ties_go_to_the_first_seen_witness :
  export_metrics sample_world sample_world "1h"
  = Ok {|
      requests_total := 3;
      requests_total_last_24h := 4;
      requests_by_user := by_user sample_result;
      requests_by_endpoint := by_endpoint sample_result;
      requests_by_repository := by_repo sample_result;
      requests_by_service := by_service sample_result;
      requests_by_source_ip := by_ip sample_result;
      requests_by_hour := by_hour sample_result;
      status_code_total := by_status sample_result;
      custom_flag_matches := []
    |} /\
  exists j,
    of_count 1 (by_endpoint sample_result)
    = firstn j (of_count 1 (Counter.items (by_endpoint sample_result))).
Proof.
  split; [vm_compute; reflexivity|].
  apply (ties_go_to_the_first_seen sample_world sample_world "1h"
           {| requests_total := 3;
              requests_total_last_24h := 4;
              requests_by_user := by_user sample_result;
              requests_by_endpoint := by_endpoint sample_result;
              requests_by_repository := by_repo sample_result;
              requests_by_service := by_service sample_result;
              requests_by_source_ip := by_ip sample_result;
              requests_by_hour := by_hour sample_result;
              status_code_total := by_status sample_result;
              custom_flag_matches := [] |} 1 sample_result 1%nat);
    vm_compute; reflexivity.
Defined.

(** ** Tokens *)

Lemma tokens_are_tokens (s : string) :
  Forall is_token (tokens false s) /\
  match tokens true s with
  | [] => False
  | t :: ts => blank_free t = true /\ Forall is_token ts
  end.
Proof.
  induction s as [|c s (IHf & IHt)]; cbn [tokens].
  - split; [constructor | split; [reflexivity | constructor]].
  - destruct (is_space c) eqn:E.
    + split; [exact IHf | split; [reflexivity | exact IHf]].
    + destruct (tokens true s) as [|t ts]; [contradiction|].
      destruct IHt as (Ht & Hts).
      assert (Hc : blank_free (String c t) = true)
        by (cbn [blank_free]; now rewrite E, Ht).
      split; [constructor; [split; [discriminate | exact Hc] | exact Hts]|].
      split; [exact Hc | exact Hts].
Qed.

Lemma split_tokens (s t : string) : In t (split s) -> is_token t.
Proof.
  intros H. pose proof (proj1 (tokens_are_tokens s)) as Hall.
  rewrite Forall_forall in Hall. now apply Hall.
Qed.

Lemma index_In (parts : list string) (i : nat) (x : string) :
  index parts i = Ok x -> In x parts.
Proof.
  unfold index. destruct (nth_error parts i) eqn:E; [|discriminate].
  intros [= <-]. eapply nth_error_In, E.
Qed.

(** X12.  The keys of the counters by source address and by user are
    tokens of the line, never empty and without blank; a key of the
    counter by status code is such a token or the empty text. *)
Theorem labels_are_tokens (w : World) (h : Z) (r : Metrics) :
  collect_metrics w h = Ok r ->
  (forall k, In k (keys (by_ip r)) -> is_token k) /\
  (forall k, In k (keys (by_user r)) -> is_token k) /\
  (forall k, In k (keys (by_status r)) -> k = EmptyString \/ is_token k).
Proof.
  apply (collect_metrics_inv
           (fun m =>
              (forall k, In k (keys (by_ip m)) -> is_token k) /\
              (forall k, In k (keys (by_user m)) -> is_token k) /\
              (forall k, In k (keys (by_status m)) ->
                         k = EmptyString \/ is_token k))).
  - cbn. split; [|split]; intros k [].
  - intros flags line t m m' _ (Hi & Hu & Hs) H. apply process_line_ok in H.
    destruct H as (ip & user & status & ts & Hip & Huser & Hstatus & _ & _
                   & -> & -> & -> & _).
    split; [|split]; intros k Hk; apply incr_keys_In in Hk;
      destruct Hk as [->|Hk]; auto.
    + apply (split_tokens line), (index_In _ _ _ Hip).
    + apply (split_tokens line), (index_In _ _ _ Huser).
    + destruct (8 <? List.length (split line))%nat.
      * right. apply (split_tokens line), (index_In _ _ _ Hstatus).
      * left. now inversion Hstatus.
Qed.

Lemma labels_are_tokens_witness :
  collect_metrics sample_world 1 = Ok sample_result /\
  is_token "10.0.0.3" /\ is_token "carol" /\
  (EmptyString = EmptyString \/ is_token EmptyString).
Proof.
  split; [vm_compute; reflexivity|].
  destruct (labels_are_tokens sample_world 1 sample_result)
    as (Hi & Hu & Hs); [vm_compute; reflexivity|].
  split; [apply Hi; vm_compute; auto|].
  split; [apply Hu; vm_compute; auto|].
  apply Hs. vm_compute. auto.
Defined.

(** ** Flags *)

Lemma rstrip_by_cons (p : ascii -> bool) (c : ascii) (s : string) :
  rstrip_by p (String c s)
  = match rstrip_by p s with
    | EmptyString => if p c then EmptyString else String c EmptyString
    | r => String c r
    end.
Proof. reflexivity. Qed.

Lemma rstrip_by_idempotent (p : ascii -> bool) (s : string) :
  rstrip_by p (rstrip_by p s) = rstrip_by p s.
Proof.
  induction s as [|c s IH]; [reflexivity|]. rewrite rstrip_by_cons.
  destruct (rstrip_by p s) as [|a r] eqn:E.
  - destruct (p c) eqn:Hc; [reflexivity|]. cbn [rstrip_by]. now rewrite Hc.
  - rewrite rstrip_by_cons, IH. reflexivity.
Qed.

Lemma lstrip_by_head (p : ascii -> bool) (s : string) :
  match lstrip_by p s with
  | EmptyString => True
  | String c _ => p c = false
  end.
Proof.
  induction s as [|c s IH]; cbn [lstrip_by]; [exact I|].
  destruct (p c) eqn:E; [exact IH | exact E].
Qed.

Lemma lstrip_by_rstrip_by (p : ascii -> bool) (s : string) :
  match s with EmptyString => True | String c _ => p c = false end ->
  lstrip_by p (rstrip_by p s) = rstrip_by p s.
Proof.
  destruct s as [|c s]; [reflexivity|]. intros Hc. rewrite rstrip_by_cons.
  destruct (rstrip_by p s); rewrite ?Hc; cbn [lstrip_by]; now rewrite Hc.
Qed.

Lemma strip_idempotent (s : string) : strip (strip s) = strip s.
Proof.
  unfold strip.
  rewrite (lstrip_by_rstrip_by is_space (lstrip_by is_space s))
    by apply lstrip_by_head.
  apply rstrip_by_idempotent.
Qed.

(** X13.  Every flag loaded is a line of the flag file without the blanks
    around it, and is not empty; without a flag file there is no flag. *)
Theorem loaded_flags_are_trimmed (w : World) (f : string) :
  In f (load_flags w) ->
  f <> EmptyString /\ strip f = f /\
  exists text l,
    flag_file w = Some text /\ In l (splitlines text) /\ f = strip l.
Proof.
  unfold load_flags. destruct (flag_file w) as [text|]; [|intros []].
  intros H. apply in_map_iff in H. destruct H as (l & <- & Hl).
  apply filter_In in Hl. destruct Hl as (Hl & Hne).
  apply negb_true_iff, String.eqb_neq in Hne.
  split; [exact Hne|]. split; [apply strip_idempotent|].
  now exists text, l.
Qed.

Lemma loaded_flags_are_trimmed_witness :
  In "SQLI_ATTEMPT"
    (load_flags {| now := clock; log_dir := fun _ => None;
                   flag_file := Some ("  SQLI_ATTEMPT " ++ newline
                                      ++ newline) |}) /\
  strip "SQLI_ATTEMPT" = "SQLI_ATTEMPT".
Proof.
  split; [vm_compute; auto|].
  apply (loaded_flags_are_trimmed
           {| now := clock; log_dir := fun _ => None;
              flag_file := Some ("  SQLI_ATTEMPT " ++ newline ++ newline) |}).
  vm_compute. auto.
Defined.

Lemma collect_metrics_inv_flags (P : Metrics -> Prop) (w : World) (h : Z)
  (r : Metrics) :
  P fresh ->
  (forall line t m m',
      parse_line_time line = Ok (Some t) ->
      P m -> process_line (load_flags w) line m = Ok m' -> P m') ->
  collect_metrics w h = Ok r -> P r.
Proof.
  intros H0 Hbody H. unfold collect_metrics in H.
  apply bind_ok in H. destruct H as (cutoff & _ & H).
  apply bind_ok in H. destruct H as (dates & _ & H).
  apply bind_ok in H. destruct H as (m & Hm & H).
  assert (Hscan : forall name m m',
             P m -> scan_file w (load_flags w) cutoff name m = Ok m' -> P m').
  { intros name. apply scan_file_inv. intros line t a a' Hp _. eapply Hbody, Hp. }
  eapply Hscan; [|exact H].
  eapply for_each_inv; [| exact H0 | exact Hm].
  intros d acc acc' _ Hacc Hd.
  eapply for_each_inv; [| exact Hacc | exact Hd].
  intros suffix a a' _. apply Hscan.
Qed.

Lemma count_flags_spec (flags : list string) (line : string) (c : Counter.t) :
  incl (keys (count_flags flags line c)) (keys c ++ flags) /\
  (Counter.sum (count_flags flags line c)
   <= Counter.sum c + List.length flags)%nat.
Proof.
  unfold count_flags. revert c.
  induction flags as [|f flags IH]; intros c; cbn [fold_left List.length].
  - split; [|lia]. intros k Hk. apply in_or_app. now left.
  - destruct (IH (if contains f line then Counter.incr f c else c))
      as (Hk & Hs).
    split.
    + intros k Hin. apply Hk in Hin. apply in_app_or in Hin.
      apply in_or_app. destruct Hin as [Hin|Hin]; [|right; now right].
      destruct (contains f line); [|now left].
      apply incr_keys_In in Hin. destruct Hin as [->|Hin];
        [right; now left | now left].
    + destruct (contains f line); [rewrite sum_incr in Hs|]; lia.
Qed.

(** X14.  The keys of the counter of flags are loaded flags, and its
    counts add up to at most the total times the number of flags. *)
Theorem flag_matches_are_bounded (w : World) (h : Z) (r : Metrics) :
  collect_metrics w h = Ok r ->
  incl (keys (custom_flags r)) (load_flags w) /\
  (Counter.sum (custom_flags r) <= total r * List.length (load_flags w))%nat.
Proof.
  apply (collect_metrics_inv_flags
           (fun m => incl (keys (custom_flags m)) (load_flags w) /\
                     (Counter.sum (custom_flags m)
                      <= total m * List.length (load_flags w))%nat)).
  - cbn. split; [intros k [] | lia].
  - intros line t m m' _ (Hk & Hs) H. apply process_line_ok in H.
    destruct H as (ip & user & status & ts & _ & _ & _ & _ & -> & _ & _ & _
                   & _ & _ & ->).
    destruct (count_flags_spec (load_flags w) line (custom_flags m))
      as (Hk' & Hs').
    split.
    + intros k Hin. apply Hk' in Hin. apply in_app_or in Hin.
      destruct Hin as [Hin|Hin]; [now apply Hk | exact Hin].
    + lia.
Qed.


Lemma flag_matches_are_bounded_witness :
  exists r,
    collect_metrics flagged_world 1 = Ok r /\
    incl (keys (custom_flags r)) (load_flags flagged_world) /\
    (Counter.sum (custom_flags r)
     <= total r * List.length (load_flags flagged_world))%nat /\
    custom_flags r = [("SQLI_ATTEMPT", 1%nat)].
Proof.
  destruct (collect_metrics flagged_world 1) as [r|e] eqn:E;
    [|vm_compute in E; discriminate].
  exists r. split; [reflexivity|].
  destruct (flag_matches_are_bounded flagged_world 1 r E) as (Hk & Hs).
  split; [exact Hk|]. split; [exact Hs|].
  vm_compute in E. inversion E. reflexivity.
Defined.

(** ** Why the aggregation fails *)






(** ** The route *)

(** X15.  A window of digits and an upper-case [H] passes the validation
    of the route and is answered, on the Python path, with status 200 and
    the message of the [ValueError] of [int], whatever the logs hold. *)
Theorem uppercase_window_is_answered_with_an_error (w w24 : World)
  (run : ScriptRun) (ds : string) :
  all_digits ds = true -> ds <> EmptyString ->
  metrics w w24 run (Some (ds ++ "H")) false = Response (Message ValueError).
Proof.
  intros Hd Hne. destruct (uppercase_window_raises ds Hd Hne) as (Hf & Hw).
  unfold metrics. rewrite Hf. cbn [negb].
  unfold export_metrics. rewrite Hw. reflexivity.
Qed.

Lemma uppercase_window_is_answered_with_an_error_witness :
  all_digits "6" = true /\ ("6" <> EmptyString) /\
  metrics sample_world sample_world TimedOut (Some "6H") false
  = Response (Message ValueError).
Proof.
  split; [reflexivity|]. split; [discriminate|].
  apply (uppercase_window_is_answered_with_an_error
           sample_world sample_world TimedOut "6");
    [reflexivity | discriminate].
Defined.

(** X16.  A window that reaches before the first day of the calendar
    makes the export raise [OverflowError], before any file is read. *)
Theorem window_beyond_the_calendar (w w24 : World) (window : string)
  (hours : Z) :
  window_hours window = Ok hours ->
  now w - 3600 * hours < 86400 ->
  export_metrics w w24 window = Raise OverflowError.
Proof.
  intros Hh Hlow. unfold export_metrics. rewrite Hh. cbn [bind].
  unfold collect_metrics, sub_hours.
  destruct (999999999 <? _); [reflexivity|].
  assert (E : (date (now w - 3600 * hours) <? 1) = true).
  { apply Z.ltb_lt. unfold date. apply Z.div_lt_upper_bound; lia. }
  rewrite E. reflexivity.
Qed.

Lemma window_beyond_the_calendar_witness :
  window_hours "99999999h" = Ok 99999999 /\
  now sample_world - 3600 * 99999999 < 86400 /\
  export_metrics sample_world sample_world "99999999h" = Raise OverflowError.
Proof.
  split; [vm_compute; reflexivity|]. split; [vm_compute; reflexivity|].
  apply (window_beyond_the_calendar sample_world sample_world
           "99999999h" 99999999); vm_compute; reflexivity.
Defined.

(** ** The files that matter *)

Lemma for_each_ext {A S : Type} (f g : A -> S -> result S) (xs : list A) :
  (forall x acc, In x xs -> f x acc = g x acc) ->
  forall acc, for_each f xs acc = for_each g xs acc.
Proof.
  induction xs as [|x xs IH]; intros Hfg acc; [reflexivity|].
  cbn [for_each]. rewrite (Hfg x acc) by now left.
  destruct (g x acc) as [acc1|e]; cbn [bind]; [|reflexivity].
  apply IH. intros y acc2 Hy. apply Hfg. now right.
Qed.

(** X17.  Two worlds with the same clock and the same flag file, whose
    log directories agree on the live file and on the archives of the
    dates from the day of the cutoff to the day of the clock, give the
    same aggregation: no other file is read. *)
Theorem only_the_files_of_the_window_are_read (w w' : World) (h : Z) :
  now w = now w' ->
  flag_file w = flag_file w' ->
  (forall name, is_read w h name -> log_dir w name = log_dir w' name) ->
  collect_metrics w h = collect_metrics w' h.
Proof.
  intros Hnow Hflag Hfiles. unfold collect_metrics. rewrite <- Hnow.
  destruct (sub_hours (now w) h) as [cutoff|e] eqn:Hc; [|reflexivity].
  cbn [bind]. pose proof (sub_hours_ok _ _ _ Hc) as Hcut.
  destruct (date_loop _ (date cutoff) []) as [ds|e] eqn:Hd; [|reflexivity].
  cbn [bind].
  assert (Hfl : load_flags w = load_flags w')
    by (unfold load_flags; now rewrite Hflag).
  rewrite <- Hfl.
  assert (Hscan : forall name m,
             is_read w h name ->
             scan_file w (load_flags w) cutoff name m
             = scan_file w' (load_flags w) cutoff name m).
  { intros name m Hr. unfold scan_file. now rewrite (Hfiles name Hr). }
  apply date_loop_spec in Hd. destruct Hd as (_ & Hin).
  rewrite (for_each_ext
             (fun d m =>
                for_each
                  (fun suffix m =>
                     scan_file w (load_flags w) cutoff
                       ("request-" ++ d ++ suffix) m)
                  [".log.gz"; ".log"] m)
             (fun d m =>
                for_each
                  (fun suffix m =>
                     scan_file w' (load_flags w) cutoff
                       ("request-" ++ d ++ suffix) m)
                  [".log.gz"; ".log"] m)).
  - destruct (for_each _ (sorted ds) fresh) as [m|e]; [|reflexivity].
    cbn [bind]. apply Hscan. now left.
  - intros d acc Hd.
    apply (Permutation_in _ (sorted_perm ds)) in Hd. apply Hin in Hd.
    destruct Hd as [[]|(k & Hk & ->)].
    apply for_each_ext. intros suffix a Hs. apply Hscan. right.
    exists (date cutoff + Z.of_nat k), suffix. rewrite <- Hcut.
    split; [lia|]. split; [|reflexivity].
    destruct Hs as [<-|[<-|[]]]; auto.
Qed.

Lemma only_the_files_of_the_window_are_read_witness :
  now sample_world = now cluttered_world /\
  flag_file sample_world = flag_file cluttered_world /\
  collect_metrics cluttered_world 1 = Ok sample_result.
Proof.
  split; [reflexivity|]. split; [reflexivity|].
  rewrite <- (only_the_files_of_the_window_are_read
                sample_world cluttered_world 1).
  - vm_compute. reflexivity.
  - reflexivity.
  - reflexivity.
  - intros name [->|(day & suffix & Hday & Hs & ->)]; [reflexivity|].
    assert (E1 : date (now sample_world - 3600 * 1) = 738886)
      by (vm_compute; reflexivity).
    assert (E2 : date (now sample_world) = 738887)
      by (vm_compute; reflexivity).
    rewrite E1, E2 in Hday.
    assert (Hd : day = 738886 \/ day = 738887) by lia.
    destruct Hd as [->| ->]; destruct Hs as [->| ->]; reflexivity.
Defined.

(** ** Witnesses of earlier lemmas *)

Lemma lowercase_window_is_parsed_witness :
  all_digits "12" = true /\ ("12" <> EmptyString) /\
  (String.length "12" <= int_max_str_digits)%nat /\
  window_format "12h" = true /\ window_hours "12h" = Ok 12.
Proof.
  assert (Hlen : (String.length "12" <= int_max_str_digits)%nat)
    by (unfold int_max_str_digits; cbn [String.length]; lia).
  split; [reflexivity|]. split; [discriminate|]. split; [exact Hlen|].
  destruct (lowercase_window_is_parsed "12") as (Hf & Hw & _).
  - reflexivity.
  - discriminate.
  - exact Hlen.
  - split; [exact Hf | exact Hw].
Defined.

Lemma unparsed_request_is_still_counted_witness :
  count_request line_short [] [] [] = Raise IndexError /\
  exists m',
    process_line [] line_short fresh = Ok m' /\
    by_endpoint m' = [] /\ total m' = 1%nat /\
    Counter.sum (by_ip m') = 1%nat.
Proof.
  split; [vm_compute; reflexivity|].
  destruct (process_line [] line_short fresh) as [m'|e] eqn:E;
    [|vm_compute in E; discriminate].
  exists m'. split; [reflexivity|].
  destruct (unparsed_request_is_still_counted [] line_short fresh m'
              IndexError) as (He & _ & _ & Ht & Hi & _).
  - vm_compute. reflexivity.
  - exact E.
  - split; [exact He|]. split; [exact Ht | exact Hi].
Defined.

Import Storage.

(** ** Reading that fails *)

Lemma for_each_read_of_result {A S : Type} (f : A -> S -> outcome S)
  (g : A -> S -> result S) (xs : list A) :
  (forall x acc, In x xs -> f x acc = of_result (g x acc)) ->
  forall acc, for_each_read f xs acc = of_result (for_each g xs acc).
Proof.
  induction xs as [|x xs IH]; intros Hfg acc; [reflexivity|].
  cbn [for_each_read for_each]. rewrite (Hfg x acc) by now left.
  destruct (g x acc) as [acc1|e]; cbn; [|reflexivity].
  apply IH. intros y acc2 Hy. apply Hfg. now right.
Qed.

Lemma scan_file_read_sound (d : Disk) (flags : list string)
  (cutoff : datetime) (name : string) (m : Metrics) :
  (forall r, files d name = Some r -> failure r = None) ->
  scan_file_read d flags cutoff name m
  = of_result (scan_file (as_read d) flags cutoff name m).
Proof.
  intros Hok. unfold scan_file_read, scan_file, as_read. cbn [log_dir].
  destruct (files d name) as [r|]; [|reflexivity]. cbn [option_map].
  unfold iter_log_file_read. rewrite (Hok r eq_refl).
  destruct (iter_log_file _ _ _ _); reflexivity.
Qed.

(** When no reading fails, the aggregation is the one of the lines read. *)
Lemma collect_metrics_read_sound (d : Disk) (h : Z) :
  (forall e, flags_txt d <> FlagUnreadable e) ->
  (forall name r, files d name = Some r -> failure r = None) ->
  collect_metrics_read d h = of_result (collect_metrics (as_read d) h).
Proof.
  intros Hflags Hfiles. unfold collect_metrics_read, collect_metrics.
  change (now (as_read d)) with (clock_now d).
  destruct (sub_hours (clock_now d) h) as [cutoff|e]; [|reflexivity].
  cbn [of_result and_then bind].
  destruct (date_loop _ (date cutoff) []) as [ds|e]; [|reflexivity].
  cbn [of_result and_then bind].
  assert (Hl : load_flags_read d = Returned (load_flags (as_read d))).
  { unfold load_flags_read. destruct (flags_txt d) eqn:E; try reflexivity.
    now destruct (Hflags e). }
  rewrite Hl. cbn [and_then].
  rewrite (for_each_read_of_result _
             (fun dd m =>
                for_each
                  (fun suffix m =>
                     scan_file (as_read d) (load_flags (as_read d)) cutoff
                       ("request-" ++ dd ++ suffix) m)
                  [".log.gz"; ".log"] m)).
  - destruct (for_each _ (sorted ds) fresh) as [m|e]; [|reflexivity].
    cbn [of_result and_then bind].
    apply scan_file_read_sound, Hfiles.
  - intros dd acc _. apply for_each_read_of_result.
    intros suffix a _. apply scan_file_read_sound, Hfiles.
Qed.

(** X7.  The aggregation returns whenever the cutoff is in the range of
    the calendar, the clock is not on its last day, the flag file is
    absent or read, every file that exists is read to its end and every
    line read is passable. *)
Theorem aggregation_returns (d : Disk) (h : Z) (cutoff : datetime) :
  sub_hours (clock_now d) h = Ok cutoff ->
  date (clock_now d) < MAXORDINAL ->
  (forall e, flags_txt d <> FlagUnreadable e) ->
  (forall name r,
      files d name = Some r ->
      failure r = None /\
      forall line, In line (lines_read r) -> passable cutoff line) ->
  exists m, collect_metrics_read d h = Returned m.
Proof.
  intros Hc Hmax Hflags Hfiles.
  rewrite collect_metrics_read_sound;
    [| exact Hflags | intros name r Hr; apply (Hfiles name r Hr)].
  destruct (collect_metrics_returns (as_read d) h cutoff Hc Hmax) as (m & ->).
  - intros name lines line Hf Hl. cbn [as_read log_dir] in Hf.
    destruct (files d name) as [r|] eqn:E; [|discriminate].
    cbn [option_map] in Hf. inversion Hf; subst lines.
    now apply (Hfiles name r E).
  - now exists m.
Qed.

Lemma aggregation_returns_witness :
  sub_hours (clock_now sound_disk) 1 = Ok (clock - 3600) /\
  date (clock_now sound_disk) < MAXORDINAL /\
  exists m, collect_metrics_read sound_disk 1 = Returned m.
Proof.
  split; [vm_compute; reflexivity|]. split; [vm_compute; reflexivity|].
  apply (aggregation_returns sound_disk 1 (clock - 3600)).
  - vm_compute. reflexivity.
  - vm_compute. reflexivity.
  - intros e. discriminate.
  - intros name r Hf. cbn in Hf.
    destruct (String.eqb name "request-2024-01-01.log.gz"); [|discriminate].
    inversion Hf; subst r. split; [reflexivity|].
    intros line Hl. cbn [lines_read] in Hl.
    destruct Hl as [<-|[<-|[<-|[<-|[]]]]]; vm_compute;
      first [now left | right; lia].
Defined.





